(** * Time-series analytical tools: a shallow embedding

    This development embeds [data_processing/timeseries_analytical_tools.py]:
    the rolling statistics of [test_stationarity], the brute-force order
    search [find_optimal_pdq] and the cutoff and fit of [sarimax_plot].

    The module is an orchestration of pandas and statsmodels calls.  The
    deterministic data operations of pandas that the code relies on (label
    slicing, positional slicing, index alignment, NaN-skipping sums, rolling
    windows, date offsets) are written out as functions; the numerical
    optimiser of statsmodels and the sorting kernel of pandas are taken as
    variables of a section, so every theorem holds for whatever they return.

    Floating-point observations are idealised as exact rationals ([Q]); a
    missing value (NaN) is [None].  Infinite observations and overflow in
    double precision have no counterpart here: a statement that counts
    the values of a rolling statistic is made for observations of
    moderate size. *)

From Stdlib Require Import String.
From Stdlib Require Import List ZArith QArith Qabs Qfield Bool Lia.
From Stdlib Require Import Permutation Sorted.
Import ListNotations.

Local Open Scope Z_scope.

(* ================================================================= *)
(** ** Calendar dates and date offsets (pandas [Timestamp], [DateOffset]) *)

Module Calendar.

Record Timestamp := mkTS { year : Z; month : Z; day : Z }.

Definition ts_compare (a b : Timestamp) : comparison :=
  match year a ?= year b with
  | Eq => match month a ?= month b with
          | Eq => day a ?= day b
          | c => c
          end
  | c => c
  end.

Definition ts_leb (a b : Timestamp) : bool :=
  match ts_compare a b with Gt => false | _ => true end.

Definition ts_eqb (a b : Timestamp) : bool :=
  match ts_compare a b with Eq => true | _ => false end.

Definition ts_max (a b : Timestamp) : Timestamp :=
  if ts_leb a b then b else a.

Definition is_leap (y : Z) : bool :=
  (y mod 4 =? 0) && (negb (y mod 100 =? 0) || (y mod 400 =? 0)).

Definition days_in_month (y m : Z) : Z :=
  if m =? 2 then (if is_leap y then 29 else 28)
  else if (m =? 4) || (m =? 6) || (m =? 9) || (m =? 11) then 30
  else 31.

(** Where in the target month a month shift lands. *)
Inductive DayOpt := SameDay | MonthStart | MonthEndDay.

(** [shift_month t n opt]: move [t] by [n] calendar months.  With [SameDay]
    the day of the month is kept, clipped to the length of the target month. *)
Definition shift_month (t : Timestamp) (n : Z) (opt : DayOpt) : Timestamp :=
  let total := (month t - 1) + n in
  let y := year t + total / 12 in
  let m := total mod 12 + 1 in
  let d := match opt with
           | SameDay => Z.min (day t) (days_in_month y m)
           | MonthStart => 1
           | MonthEndDay => days_in_month y m
           end in
  mkTS y m d.

Definition next_day (t : Timestamp) : Timestamp :=
  if day t <? days_in_month (year t) (month t)
  then mkTS (year t) (month t) (day t + 1)
  else if month t <? 12 then mkTS (year t) (month t + 1) 1
       else mkTS (year t + 1) 1 1.

Definition prev_day (t : Timestamp) : Timestamp :=
  if 1 <? day t then mkTS (year t) (month t) (day t - 1)
  else if 1 <? month t
       then mkTS (year t) (month t - 1) (days_in_month (year t) (month t - 1))
       else mkTS (year t - 1) 12 31.

Definition add_days (t : Timestamp) (n : Z) : Timestamp :=
  if 0 <=? n then Nat.iter (Z.to_nat n) next_day t
  else Nat.iter (Z.to_nat (- n)) prev_day t.

(** The offsets the module meets: the index frequencies [Day] ('D'),
    [MonthBegin] ('MS') and [MonthEnd] ('M'), and the calendar-month
    [DateOffset(months=...)] that [sarimax_plot] builds itself. *)
Inductive OffsetKind := Day | MonthBegin | MonthEnd | Months.

(** An offset of [steps] periods of one kind (pandas' [offset.n]). *)
Record Offset := mkOffset { kind : OffsetKind; steps : Z }.

(** [n * offset] *)
Definition offset_mul (n : Z) (o : Offset) : Offset :=
  mkOffset (kind o) (n * steps o).

(** [- offset] *)
Definition offset_neg (o : Offset) : Offset :=
  mkOffset (kind o) (- steps o).

(** [timestamp + offset].  The anchored offsets first roll a timestamp that
    is off the anchor, then shift by whole months. *)
Definition ts_add (t : Timestamp) (o : Offset) : Timestamp :=
  let n := steps o in
  match kind o with
  | Day => add_days t n
  | Months => shift_month t n SameDay
  | MonthBegin =>
      let n' := if (n <=? 0) && (1 <? day t) then n + 1 else n in
      shift_month t n' MonthStart
  | MonthEnd =>
      let n' := if (0 <? n) && (day t <? days_in_month (year t) (month t))
                then n - 1 else n in
      shift_month t n' MonthEndDay
  end.

(** [timestamp - offset] *)
Definition ts_sub (t : Timestamp) (o : Offset) : Timestamp :=
  ts_add t (offset_neg o).

(** [pd.DateOffset(months=k)] *)
Definition DateOffset_months (k : Z) : Offset := mkOffset Months k.

(** A timestamp or [NaT], the missing timestamp; arithmetic on [NaT] gives
    [NaT] and every comparison with it is false. *)
Inductive TimeOrNaT := NaT | At (t : Timestamp).

Definition tn_sub (t : TimeOrNaT) (o : Offset) : TimeOrNaT :=
  match t with NaT => NaT | At t => At (ts_sub t o) end.

(** The range of a [Timestamp], which counts nanoseconds in 64 bits: of the
    midnights it holds those from 1677-09-22 through 2262-04-11. *)
Definition Timestamp_min : Timestamp := mkTS 1677 9 22.
Definition Timestamp_max : Timestamp := mkTS 2262 4 11.

Definition representable (t : Timestamp) : bool :=
  ts_leb Timestamp_min t && ts_leb t Timestamp_max.

(** The longest [Timedelta], in whole days. *)
Definition Timedelta_max_days : Z := 106751.

(** A [Day] offset is a fixed span of time and is added as a [Timedelta];
    the month offsets move along the calendar. *)
Definition is_tick (k : OffsetKind) : bool :=
  match k with Day => true | _ => false end.

End Calendar.
Export Calendar.

(* ================================================================= *)
(** ** Python results: a value or a raised exception

    An [exn] is an instance of [Exception], the class that the handler
    [except Exception] of the search catches.  The signals outside that
    class ([KeyboardInterrupt], [SystemExit]) are not modelled. *)

Inductive exn := Exception (cls : string) (msg : string).

Inductive Result (A : Type) :=
| Returned (a : A)
| Raised (e : exn).
Arguments Returned {A} a.
Arguments Raised {A} e.

(* ================================================================= *)
(** ** The pandas operations the module calls *)

Module Pandas.

(** One observation: a number, or [None] for NaN. *)
Definition cell := option Q.

(** A time-indexed series with the [freq] attribute of its index. *)
Record Series := mkSeries {
  items : list (Timestamp * cell);
  freq : option Offset
}.

Definition index (s : Series) : list Timestamp := map fst (items s).
Definition values (s : Series) : list cell := map snd (items s).
Definition size (s : Series) : nat := length (items s).

(** [s.index.max()]: [NaT] on an empty index. *)
Definition index_max (s : Series) : TimeOrNaT :=
  fold_left (fun acc t => match acc with
                          | NaT => At t
                          | At m => At (ts_max m t)
                          end) (index s) NaT.

(** [s.loc[start:stop]]: label slice, both ends included; [start = None]
    leaves the lower end open. *)
Definition in_range (start : option Timestamp) (stop : TimeOrNaT)
                    (t : Timestamp) : bool :=
  match start with None => true | Some a => ts_leb a t end
  && match stop with NaT => false | At b => ts_leb t b end.

Definition loc (s : Series) (start : option Timestamp) (stop : TimeOrNaT)
  : Series :=
  mkSeries (filter (fun it => in_range start stop (fst it)) (items s)) (freq s).

(** [l[k:]] with Python's reading of a negative start. *)
Definition py_slice_from {A : Type} (k : Z) (l : list A) : list A :=
  if 0 <=? k then skipn (Z.to_nat k) l
  else skipn (length l - Z.to_nat (- k)) l.

(** [s[k:]]: positional slice. *)
Definition slice_from (s : Series) (k : Z) : Series :=
  mkSeries (py_slice_from k (items s)) (freq s).

(** [s.iloc[k:]] *)
Definition iloc_from (s : Series) (k : Z) : Series := slice_from s k.

Definition cell_sub (x y : cell) : cell :=
  match x, y with
  | Some a, Some b => Some (a - b)%Q
  | _, _ => None
  end.

Definition cell_pow2 (x : cell) : cell :=
  match x with Some a => Some (a * a)%Q | None => None end.

Definition nan_row (it : Timestamp * cell) : Timestamp * cell := (fst it, None).

(** [a - b] on two series: the result is indexed by the union of the two
    (increasing) indexes, and a label carried by one side only gets NaN. *)
Fixpoint align_sub (a : list (Timestamp * cell))
  : list (Timestamp * cell) -> list (Timestamp * cell) :=
  fix aux (b : list (Timestamp * cell)) : list (Timestamp * cell) :=
    match a, b with
    | [], _ => map nan_row b
    | _, [] => map nan_row a
    | (ta, xa) :: a', (tb, xb) :: b' =>
        match ts_compare ta tb with
        | Eq => (ta, cell_sub xa xb) :: align_sub a' b'
        | Lt => (ta, None) :: align_sub a' b
        | Gt => (tb, None) :: aux b'
        end
    end.

Definition series_sub (a b : Series) : Series :=
  mkSeries (align_sub (items a) (items b)) None.

(** [s ** 2] *)
Definition series_pow2 (s : Series) : Series :=
  mkSeries (map (fun it => (fst it, cell_pow2 (snd it))) (items s)) (freq s).

(** The non-missing values of a list of cells. *)
Definition present (l : list cell) : list Q :=
  flat_map (fun c => match c with Some x => [x] | None => [] end) l.

Definition Qsum (l : list Q) : Q := fold_right Qplus 0%Q l.

(** [s.sum()]: NaN is skipped, and the sum of nothing is 0. *)
Definition series_sum (s : Series) : Q := Qsum (present (values s)).

(** [s.count()]: the number of non-missing values. *)
Definition count (s : Series) : nat := length (present (values s)).

(** *** Rolling windows *)

Record Rolling := mkRolling {
  obj : Series;
  window : nat;
  min_periods : nat
}.

(** [s.rolling(window=w)]: an integer window must not be negative;
    [min_periods] defaults to the window width. *)
Definition rolling (s : Series) (w : Z) : Result Rolling :=
  if w <? 0
  then Raised (Exception "ValueError" "window must be an integer 0 or greater")
  else Returned (mkRolling s (Z.to_nat w) (Z.to_nat w)).

(** The cells a window of width [w] ending at position [i] covers. *)
Definition window_at {A : Type} (w i : nat) (l : list A) : list A :=
  firstn (Nat.min w (i + 1)) (skipn (i + 1 - w) l).

Definition Qnat (n : nat) : Q := inject_Z (Z.of_nat n).

Definition mean_of (l : list Q) : Q := (Qsum l / Qnat (length l))%Q.

(** mean of a window: needs [min_periods] observations, and at least one. *)
Definition window_mean (minp : nat) (win : list cell) : cell :=
  let xs := present win in
  if (minp <=? length xs)%nat && (0 <? length xs)%nat
  then Some (mean_of xs) else None.

(** sample variance (one degree of freedom removed) *)
Definition var_of (l : list Q) : Q :=
  let m := mean_of l in
  (Qsum (map (fun x => (x - m) * (x - m)) l) / Qnat (length l - 1))%Q.

Section Std.
(** the floating-point square root *)
Variable sqrt : Q -> Q.

(** standard deviation of a window: needs [min_periods] observations, and
    more observations than the one degree of freedom it removes. *)
Definition window_std (minp : nat) (win : list cell) : cell :=
  let xs := present win in
  if (minp <=? length xs)%nat && (1 <? length xs)%nat
  then Some (sqrt (var_of xs)) else None.
End Std.

(** A statistic over each window.  Every window is evaluated on its own
    and exactly.  pandas carries running sums in double precision from one
    window to the next; the two agree on which values are missing as long
    as those sums stay finite, which observations of moderate size
    guarantee.  After an overflow pandas reports later windows as missing
    too: such series are outside what this model describes. *)
Definition rolling_apply (stat : nat -> list cell -> cell) (r : Rolling)
  : Series :=
  let s := obj r in
  mkSeries
    (map (fun i => (nth i (index s) (mkTS 0 0 0),
                    stat (min_periods r) (window_at (window r) i (values s))))
         (seq 0 (size s)))
    (freq s).

(** [r.mean()] *)
Definition rolling_mean (r : Rolling) : Series := rolling_apply window_mean r.

(** [r.std()] *)
Definition rolling_std (sqrt : Q -> Q) (r : Rolling) : Series :=
  rolling_apply (window_std sqrt) r.

(** *** Differences, missing values, labelled values *)

(** The cell at a position, NaN outside the series. *)
Definition cell_at (l : list cell) (i : Z) : cell :=
  if (0 <=? i) && (i <? Z.of_nat (length l))
  then nth (Z.to_nat i) l None else None.

(** [s.diff(periods)]: each observation minus the one [periods] positions
    before it (after it, for a negative [periods]); NaN where there is
    none. *)
Definition series_diff (s : Series) (periods : Z) : Series :=
  mkSeries
    (map (fun i => (nth i (index s) (mkTS 0 0 0),
                    cell_sub (nth i (values s) None)
                             (cell_at (values s) (Z.of_nat i - periods))))
         (seq 0 (size s)))
    (freq s).

Definition notna (c : cell) : bool :=
  match c with Some _ => true | None => false end.

(** [s.dropna()]: the rows that hold a value; the mask keeps no frequency. *)
Definition dropna (s : Series) : Series :=
  mkSeries (filter (fun it => notna (snd it)) (items s)) None.

(** A series of numbers under text labels, as [print] shows a report. *)
Definition LabelSeries := list (string * Q).

Definition has_label (s : LabelSeries) (label : string) : bool :=
  existsb (fun it => String.eqb (fst it) label) s.

(** [s[label] = v]: the value under [label] is replaced, or a new row is
    added at the end when the label is not there yet. *)
Definition set_label (s : LabelSeries) (label : string) (v : Q)
  : LabelSeries :=
  if has_label s label
  then map (fun it => if String.eqb (fst it) label then (fst it, v) else it) s
  else s ++ [(label, v)].

(** [s[label]] *)
Definition get_label (s : LabelSeries) (label : string) : option Q :=
  match find (fun it => String.eqb (fst it) label) s with
  | Some it => Some (snd it)
  | None => None
  end.

End Pandas.
Export Pandas.

(* ================================================================= *)
(** ** The statsmodels interface: [SARIMAX], [fit], [predict] *)

Module Statsmodels.

Definition Order := (Z * Z * Z)%type.
Definition SeasonalOrder := (Z * Z * Z * Z)%type.

(** The arguments a [SARIMAX] model is built from. *)
Record SARIMAX := mkSARIMAX {
  endog : Series;
  trend : option string;
  order : Order;
  seasonal_order : SeasonalOrder;
  enforce_stationarity : bool;
  enforce_invertibility : bool
}.

(** What the optimiser hands back: the information criterion, the predicted
    mean at every zero-based position of the sample and beyond, and whether
    a prediction over a span of positions fails. *)
Record Estimate := mkEstimate {
  est_aic : Q;
  est_mean : Z -> cell;
  est_predict_failure : Z -> Z -> option exn
}.

Record SARIMAXResults := mkResults {
  model : SARIMAX;
  estimate : Estimate
}.

(** [results.nobs]: the length of the fitted sample. *)
Definition nobs (r : SARIMAXResults) : Z := Z.of_nat (size (endog (model r))).

(** [results.aic] *)
Definition aic (r : SARIMAXResults) : Q := est_aic (estimate r).

(** [start, start+1, ..., stop], both ends included. *)
Definition positions (start stop : Z) : list Z :=
  map (fun k => start + Z.of_nat k) (seq 0 (Z.to_nat (stop - start + 1))).

(** The label of position [i]: inside the sample its own date, past the
    sample the last date moved on by the index frequency. *)
Definition position_date (s : Series) (last : Timestamp) (f : Offset) (i : Z)
  : Timestamp :=
  if i <? Z.of_nat (size s)
  then nth (Z.to_nat i) (index s) last
  else ts_add last (offset_mul (i - Z.of_nat (size s) + 1) f).

(** [results.predict(start, end)]: one value per position from [start]
    through [end], the last one included, labelled by date.  A sample with
    no date or no frequency to count on from gives no dated forecast; the
    search never reaches that case with a frequency missing, since its
    cutoff needs one. *)
Definition predict (r : SARIMAXResults) (start stop : Z) : Result Series :=
  let s := endog (model r) in
  if stop <? start
  then Raised (Exception "ValueError" "Prediction must have end after start.")
  else
    match est_predict_failure (estimate r) start stop with
    | Some e => Raised e
    | None =>
        match index_max s, freq s with
        | At last, Some f =>
            Returned
              (mkSeries (map (fun i => (position_date s last f i,
                                        est_mean (estimate r) i))
                             (positions start stop))
                        (Some f))
        | _, _ =>
            Raised (Exception "ValueError" "no dated index to forecast on")
        end
    end.

End Statsmodels.
Export Statsmodels.

(* ================================================================= *)
(** ** Result tables ([pd.DataFrame] with columns key, aic, mse) *)

(** ['ARIMA{}x{}12 - AIC:{} - MSE:{}'.format(a, b, c, d)]: the text is fixed
    by the four values it interpolates, which is what is kept of it. *)
Record ResultString := format_result {
  fmt_order : Order;
  fmt_seasonal : SeasonalOrder;
  fmt_aic : Q;
  fmt_mse : Q
}.

(** One entry [[result_string, aic, mse]] of [test_results]. *)
Record Row := mkRow {
  row_key : ResultString;
  row_aic : Q;
  row_mse : Q
}.

Record DataFrame := mkDataFrame {
  rows : list Row;
  columns : list string
}.

(** [df.head()]: the first five rows. *)
Definition head (df : DataFrame) : DataFrame :=
  mkDataFrame (firstn 5 (rows df)) (columns df).

(* ================================================================= *)
(** ** Effects: standard output, the models built, exceptions *)

Inductive PyVal :=
| VStr (s : string)
| VOrders (l : list Order)
| VSeasonalOrders (l : list SeasonalOrder)
| VExn (e : exn)
| VFrame (df : DataFrame)
| VSummary (r : SARIMAXResults).

(** One call of [print]. *)
Record PrintCall := mkPrint { print_args : list PyVal; print_sep : string }.

(** What a run leaves behind: the [print] calls and the [SARIMAX] models it
    built, both in order of occurrence. *)
Record World := mkWorld {
  stdout : list PrintCall;
  built : list SARIMAX
}.

Definition world0 : World := mkWorld [] [].

Definition M (A : Type) : Type := World -> Result A * World.

Definition ret {A : Type} (a : A) : M A := fun w => (Returned a, w).

Definition bind {A B : Type} (m : M A) (k : A -> M B) : M B :=
  fun w => match m w with
           | (Returned a, w') => k a w'
           | (Raised e, w') => (Raised e, w')
           end.

Declare Scope py_scope.
Delimit Scope py_scope with py.
Notation "x <- m ;; k" := (bind m (fun x => k))
  (at level 61, m at next level, right associativity) : py_scope.
Notation "m ;;; k" := (bind m (fun _ => k))
  (at level 61, right associativity) : py_scope.
Local Open Scope py_scope.

(** A library result inside a run. *)
Definition lift {A : Type} (r : Result A) : M A := fun w => (r, w).

(** [try: body except Exception as e: handler(e)] *)
Definition try_except {A : Type} (body : M A) (handler : exn -> M A) : M A :=
  fun w => match body w with
           | (Returned a, w') => (Returned a, w')
           | (Raised e, w') => handler e w'
           end.

(** [print(args..., sep=sep)] *)
Definition print (args : list PyVal) (sep : string) : M unit :=
  fun w => (Returned tt, mkWorld (stdout w ++ [mkPrint args sep]) (built w)).

(** [for x in xs: s = body(x, s)], the loop's variables threaded as [s]. *)
Fixpoint for_each {A S : Type} (xs : list A) (body : A -> S -> M S) (s : S)
  : M S :=
  match xs with
  | [] => ret s
  | x :: xs' => s' <- body x s ;; for_each xs' body s'
  end.

(** [range(a, b)] *)
Definition range (a b : Z) : list Z :=
  map (fun k => a + Z.of_nat k) (seq 0 (Z.to_nat (b - a))).

(** [itertools.product(p, d, q)]: the last position varies fastest. *)
Definition product3 (p d q : list Z) : list Order :=
  flat_map (fun x => flat_map (fun y => map (fun z => (x, y, z)) q) d) p.

(** [tqdm(xs)] yields the elements of [xs] in order (the progress bar goes
    to standard error and is not kept). *)
Definition tqdm {A : Type} (xs : list A) : list A := xs.

(** [n * freq]: the index carries no frequency when [freq] is [None]. *)
Definition int_mul_freq (n : Z) (f : option Offset) : Result Offset :=
  match f with
  | Some o => Returned (offset_mul n o)
  | None =>
      Raised (Exception "TypeError"
                "unsupported operand type(s) for *: 'int' and 'NoneType'")
  end.

Definition space : string := " ".
Definition newline : string := String (Ascii.ascii_of_nat 10) EmptyString.

(* ================================================================= *)
(** ** The module [timeseries_analytical_tools] *)

Section Tools.

(** *** What the libraries decide *)

(** [SARIMAX(...)]: the constructor may reject its arguments. *)
Variable sarimax_init : SARIMAX -> option exn.
(** [mod.fit()]: the optimiser's estimate, or the exception it raised. *)
Variable sarimax_fit : SARIMAX -> Result Estimate.
(** The sorting kernel behind [sort_values]: the rows reordered by one
    numeric column. *)
Variable sort_rows : (Row -> Q) -> list Row -> list Row.
(** The floating-point square root behind [std]. *)
Variable sqrt : Q -> Q.

(** [sm.tsa.statespace.SARIMAX(...)] inside a run: the model built is
    recorded, then the constructor's verdict is taken. *)
Definition new_SARIMAX (m : SARIMAX) : M SARIMAX :=
  fun w =>
    let w' := mkWorld (stdout w) (built w ++ [m]) in
    match sarimax_init m with
    | Some e => (Raised e, w')
    | None => (Returned m, w')
    end.

(** [mod.fit()] *)
Definition fit (m : SARIMAX) : Result SARIMAXResults :=
  match sarimax_fit m with
  | Returned est => Returned (mkResults m est)
  | Raised e => Raised e
  end.

(** [df.sort_values(col)] *)
Definition sort_values (col : Row -> Q) (df : DataFrame) : DataFrame :=
  mkDataFrame (sort_rows col (rows df)) (columns df).

(** *** [test_stationarity]: the three lines of its chart

    [rolmean], [rolstd] and the plotted part of the original series.  The
    Dickey-Fuller report that follows is printed from [adfuller] alone and
    is not part of the model. *)
Record StationarityChart := mkChart {
  orig : Series;
  rolmean : Series;
  rolstd : Series
}.

Definition test_stationarity (timeseries : Series) (window : Z)
  : Result StationarityChart :=
  match rolling timeseries window with
  | Raised e => Raised e
  | Returned r =>
      let rolmean := rolling_mean r in
      let rolstd := rolling_std sqrt r in
      Returned (mkChart (iloc_from timeseries window) rolmean rolstd)
  end.

(** *** [find_optimal_pdq] *)

(** The body of the [try] block up to the values it appends. *)
Definition fit_and_score (data : Series) (train_delta : Z)
    (start_train : option Timestamp) (train_date : TimeOrNaT)
    (param : Order) (param_seasonal : SeasonalOrder) : M Row :=
  mod_ <- new_SARIMAX (mkSARIMAX (loc data start_train train_date) None
                                 param param_seasonal false false) ;;
  results <- lift (fit mod_) ;;
  prediction <- lift (predict results (nobs results)
                              (nobs results + train_delta)) ;;
  let actual := slice_from data (- train_delta) in
  (* MSE *)
  let mse := series_sum (series_pow2 (series_sub prediction actual)) in
  let result_string :=
    format_result param param_seasonal (aic results) mse in
  ret (mkRow result_string (aic results) mse).

Definition search_space : list Order * list SeasonalOrder :=
  let p := range 0 2 in
  let d := p in
  let q := p in
  let pdq := product3 p d q in
  let seasonal_pdq :=
    map (fun x => (fst (fst x), snd (fst x), snd x, 12)) (product3 p d q) in
  (pdq, seasonal_pdq).

(** One pass of the inner loop body. *)
Definition search_step (data : Series) (train_delta : Z)
    (start_train : option Timestamp) (train_date : TimeOrNaT)
    (pdq : list Order) (seasonal_pdq : list SeasonalOrder)
    (param : Order) (param_seasonal : SeasonalOrder)
    (test_results : list Row) : M (list Row) :=
  try_except
    (row <- fit_and_score data train_delta start_train train_date
                          param param_seasonal ;;
     ret (test_results ++ [row]))
    (fun e =>
       print [VStr "exception in:"; VOrders pdq; VSeasonalOrders seasonal_pdq]
             space ;;;
       print [VExn e] space ;;;
       (* continue *)
       ret test_results).

(** [data.index.max() - (train_delta * data.index.freq)]: the date this
    expression denotes on the calendar.  The dates here are unbounded;
    the limits pandas puts on the subtraction follow. *)
Definition find_optimal_pdq_train_date (data : Series) (train_delta : Z)
  : Result TimeOrNaT :=
  let latest := index_max data in
  match int_mul_freq train_delta (freq data) with
  | Returned step => Returned (tn_sub latest step)
  | Raised e => Raised e
  end.

(** What pandas enforces while it evaluates that line: a [Day] step is
    subtracted as a [Timedelta], which must hold the span, and the date
    asked for must be one that a [Timestamp] holds.  Either failure is
    raised from the first line of the function, outside the [try]. *)
Definition find_optimal_pdq_train_date_limits (data : Series)
    (train_delta : Z) : Result unit :=
  match int_mul_freq train_delta (freq data) with
  | Raised e => Raised e
  | Returned step =>
      if is_tick (kind step) && (Timedelta_max_days <? Z.abs (steps step))
      then Raised (Exception "OverflowError"
                     "Python int too large to convert to C long")
      else match tn_sub (index_max data) step with
           | NaT => Returned tt
           | At t =>
               if representable t then Returned tt
               else Raised (Exception "OutOfBoundsDatetime"
                              "Out of bounds nanosecond timestamp")
           end
  end.

Definition find_optimal_pdq (data : Series) (train_delta : Z)
    (start_train : option Timestamp) : M DataFrame :=
  lift (find_optimal_pdq_train_date_limits data train_delta) ;;;
  train_date <- lift (find_optimal_pdq_train_date data train_delta) ;;
  let pdq := fst search_space in
  let seasonal_pdq := snd search_space in
  test_results <-
    for_each (tqdm pdq)
      (fun param test_results =>
         for_each seasonal_pdq
           (fun param_seasonal test_results =>
              search_step data train_delta start_train train_date
                          pdq seasonal_pdq param param_seasonal test_results)
           test_results)
      [] ;;
  let results_df := mkDataFrame test_results ["key"; "aic"; "mse"]%string in
  let min_aic := head (sort_values row_aic results_df) in
  print [VStr "Min AIC:"; VFrame min_aic] newline ;;;
  let min_mse := head (sort_values row_mse results_df) in
  print [VStr "Min MSE:"; VFrame min_mse] newline ;;;
  ret results_df.

(** *** [sarimax_plot]: cutoff, fit and summary

    The forecast chart drawn after the summary is not part of the model. *)
Definition sarimax_plot_train_date (data : Series) (train_delta : Z)
  : TimeOrNaT :=
  tn_sub (index_max data) (DateOffset_months train_delta).

Definition sarimax_plot (data : Series) (order : Order)
    (trend : option string) (seasonal_order : SeasonalOrder)
    (train_delta : Z) (start_date : option Timestamp) : M SARIMAXResults :=
  let train_date := sarimax_plot_train_date data train_delta in
  mod_ <- new_SARIMAX (mkSARIMAX (loc data start_date train_date) trend
                                 order seasonal_order false false) ;;
  res <- lift (fit mod_) ;;
  print [VSummary res] space ;;;
  ret res.

End Tools.

(* ================================================================= *)
(** ** The other functions of the module *)

(** *** [plot_act_pacf]: the call of [plot_acf]

    The series and the lag count that line 87 hands to [plot_acf].  That
    call can raise (it does on a series too short for the lags), and the
    second panel is drawn only if it returns: what follows line 87 is not
    part of the model. *)
Record Correlogram := mkCorrelogram {
  acf_input : Series;
  acf_lags : Z
}.

(** [lags] is [None] when the caller leaves it to its default of 24. *)
Definition plot_act_pacf (close : Series) (freq : Z) (lags : option Z)
  : Correlogram :=
  let lags := match lags with Some l => l | None => 24 end in
  mkCorrelogram (dropna (series_diff close freq)) lags.

(** *** [test_stationarity]: the Dickey-Fuller report

    What [adfuller] returns: the statistic, the p-value, the lags used, the
    observations used, the critical values by significance level (a
    dictionary, in its order of insertion) and the best criterion. *)
Record ADFResult := mkADF {
  adf_stat : Q;
  adf_pvalue : Q;
  adf_usedlag : Z;
  adf_nobs : Z;
  adf_critical : list (string * Q);
  adf_icbest : Q
}.

(** ['Critical Value (%s)' % key] *)
Definition critical_label (key : string) : string :=
  ("Critical Value (" ++ key ++ ")")%string.

(** [dfoutput] as it is printed: the first four results under their labels,
    then one assignment per critical value. *)
Definition dickey_fuller_report (dftest : ADFResult) : LabelSeries :=
  let dfoutput :=
    [ ("Test Statistic"%string, adf_stat dftest);
      ("p-value"%string, adf_pvalue dftest);
      ("#Lags Used"%string, inject_Z (adf_usedlag dftest));
      ("Number of Observations Used"%string, inject_Z (adf_nobs dftest)) ] in
  fold_left (fun dfoutput kv =>
               set_label dfoutput (critical_label (fst kv)) (snd kv))
            (adf_critical dftest) dfoutput.

(* ================================================================= *)
(** ** Vocabulary for the statements *)

Definition log_model (w : World) (ms : list SARIMAX) : World :=
  mkWorld (stdout w) (built w ++ ms).

Definition log_prints (w : World) (ps : list PrintCall) : World :=
  mkWorld (stdout w ++ ps) (built w).

Section Outcomes.

Variable sarimax_init : SARIMAX -> option exn.
Variable sarimax_fit : SARIMAX -> Result Estimate.

Variable data : Series.
Variable train_delta : Z.
Variable start_train : option Timestamp.
Variable train_date : TimeOrNaT.

(** The model one combination is fitted on. *)
Definition attempted_model (pr : Order * SeasonalOrder) : SARIMAX :=
  mkSARIMAX (loc data start_train train_date) None (fst pr) (snd pr)
            false false.

(** The outcome of one combination: its row, or the exception raised. *)
Definition attempt (pr : Order * SeasonalOrder) : Result Row :=
  fst (fit_and_score sarimax_init sarimax_fit data train_delta start_train
                     train_date (fst pr) (snd pr) world0).

(** The score line 65 computes from a forecast. *)
Definition score (prediction : Series) : Q :=
  series_sum (series_pow2 (series_sub prediction
                                      (slice_from data (- train_delta)))).

Definition exception_prints (e : exn) : list PrintCall :=
  [ mkPrint [VStr "exception in:"; VOrders (fst search_space);
             VSeasonalOrders (snd search_space)] space;
    mkPrint [VExn e] space ].

(** What the pairs visited contribute to the table and to the output. *)
Definition rows_of (pairs : list (Order * SeasonalOrder)) : list Row :=
  flat_map (fun pr => match attempt pr with
                      | Returned row => [row]
                      | Raised _ => []
                      end) pairs.

Definition prints_of (pairs : list (Order * SeasonalOrder))
  : list PrintCall :=
  flat_map (fun pr => match attempt pr with
                      | Returned _ => []
                      | Raised e => exception_prints e
                      end) pairs.

Definition step (pr : Order * SeasonalOrder) (acc : list Row)
  : M (list Row) :=
  search_step sarimax_init sarimax_fit data train_delta start_train
              train_date (fst search_space) (snd search_space)
              (fst pr) (snd pr) acc.

End Outcomes.

(** The pairs of the search in the order the nested loops visit them. *)
Definition enumeration : list (Order * SeasonalOrder) :=
  list_prod (fst search_space) (snd search_space).

Definition table_columns : list string := ["key"; "aic"; "mse"]%string.

Section Views.

Variable sarimax_init : SARIMAX -> option exn.
Variable sarimax_fit : SARIMAX -> Result Estimate.
Variable sort_rows : (Row -> Q) -> list Row -> list Row.

Definition table_of (data : Series) (train_delta : Z)
    (start_train : option Timestamp) (train_date : TimeOrNaT) : DataFrame :=
  mkDataFrame (rows_of sarimax_init sarimax_fit data train_delta start_train
                       train_date enumeration)
              table_columns.

Definition summary_prints (df : DataFrame) : list PrintCall :=
  [ mkPrint [VStr "Min AIC:"; VFrame (head (sort_values sort_rows row_aic df))]
            newline;
    mkPrint [VStr "Min MSE:"; VFrame (head (sort_values sort_rows row_mse df))]
            newline ].

End Views.

(** The place of a pair in the nested loops: the outer loop counts the
    non-seasonal triples in product order, the inner one the seasonal. *)
Definition enumeration_rank (pr : Order * SeasonalOrder) : nat :=
  let '((p, d, q), (P, D, Q, _)) := pr in
  Z.to_nat (32 * p + 16 * d + 8 * q + 4 * P + 2 * D + Q).

(** [s.mean()]: NaN is skipped; the mean of nothing is NaN. *)
Definition series_mean (s : Series) : cell :=
  match present (values s) with
  | [] => None
  | xs => Some (mean_of xs)
  end.

(** The score as the specification words it: the mean of the squared
    differences between the predicted values and the tail observations. *)
Definition spec_mean_squared_error (prediction actual : Series) : cell :=
  series_mean (series_pow2 (series_sub prediction actual)).

(** A series with no missing observation. *)
Definition complete (s : Series) : Prop :=
  Forall (fun c : cell => c <> None) (values s).

(** What [sort_values] promises of its kernel: the same rows, the column
    ascending from each row to the next. *)
Definition sorts_ascending (srt : (Row -> Q) -> list Row -> list Row) : Prop :=
  forall col l,
    Permutation l (srt col l)
    /\ Sorted (fun a b => (col a <= col b)%Q) (srt col l).

(** A stable kernel keeps the rows of equal value in the order they had. *)
Definition stable (srt : (Row -> Q) -> list Row -> list Row) : Prop :=
  forall col l v,
    filter (fun r => Qeq_bool (col r) v) (srt col l)
    = filter (fun r => Qeq_bool (col r) v) l.

(** A column read top to bottom never decreases. *)
Definition non_decreasing (xs : list Q) : Prop :=
  forall i j, (i <= j < length xs)%nat -> (nth i xs 0 <= nth j xs 0)%Q.

(** [x] stands above [y] in [l]. *)
Definition occurs_before {A : Type} (x y : A) (l : list A) : Prop :=
  exists l1 l2 l3, l = l1 ++ x :: l2 ++ y :: l3.

(** The pair of orders a row's key names. *)
Definition row_pair (r : Row) : Order * SeasonalOrder :=
  (fmt_order (row_key r), fmt_seasonal (row_key r)).

(** A real calendar date. *)
Definition valid_date (t : Timestamp) : Prop :=
  1 <= month t <= 12 /\ 1 <= day t <= days_in_month (year t) (month t).

(** [a] is not later than [b]. *)
Definition ts_le (a b : Timestamp) : Prop :=
  year a < year b
  \/ (year a = year b
      /\ (month a < month b \/ (month a = month b /\ day a <= day b))).

(** [a] is earlier than [b]. *)
Definition ts_lt (a b : Timestamp) : Prop :=
  year a < year b
  \/ (year a = year b
      /\ (month a < month b \/ (month a = month b /\ day a < day b))).

(** Every observation of the series is the number [c]. *)
Definition constant_series (c : Q) (s : Series) : Prop :=
  Forall (fun x : cell => x = Some c) (values s).

(** The series repeats itself every [period] positions. *)
Definition periodic (period : nat) (s : Series) : Prop :=
  forall i x y,
    nth_error (values s) i = Some (Some x) ->
    nth_error (values s) (i + period) = Some (Some y) ->
    (x == y)%Q.

(** Observations of moderate size: none beyond 10^100 in absolute value.
    The sums and sums of squares that pandas keeps in double precision
    while a window rolls over such a series stay finite, so a statistic is
    missing only where the window is incomplete. *)
Definition moderate (s : Series) : Prop :=
  Forall (fun c : cell =>
            match c with
            | Some x => (Qabs x <= inject_Z (10 ^ 100))%Q
            | None => True
            end) (values s).

(** A date of the series lies in the training slice: not before
    [start_train], when one is given, and not after the cutoff. *)
Definition in_training_slice (start_train : option Timestamp)
    (cutoff : TimeOrNaT) (t : Timestamp) : Prop :=
  (forall a, start_train = Some a -> ts_le a t)
  /\ exists c, cutoff = At c /\ ts_le t c.

(* ================================================================= *)
(** ** A small concrete library and series, to run the functions on *)

Module Demo.

(** Insertion sort on one numeric column; a row goes in before the first
    row whose value is not smaller, so equal values keep their order. *)
Fixpoint insert_row (col : Row -> Q) (r : Row) (l : list Row) : list Row :=
  match l with
  | [] => [r]
  | x :: l' => if Qle_bool (col r) (col x) then r :: l
               else x :: insert_row col r l'
  end.

Fixpoint insertion_sort (col : Row -> Q) (l : list Row) : list Row :=
  match l with
  | [] => []
  | r :: l' => insert_row col r (insertion_sort col l')
  end.

(** The same sort with the other choice on equal values: a row goes in
    after the last row whose value is not larger.  The column still
    ascends, but rows of equal value come out in the reverse of the order
    they had: a sort that is not stable. *)
Fixpoint insert_row_last (col : Row -> Q) (r : Row) (l : list Row)
  : list Row :=
  match l with
  | [] => [r]
  | x :: l' => if Qle_bool (col x) (col r) then x :: insert_row_last col r l'
               else r :: l
  end.

Fixpoint unstable_sort (col : Row -> Q) (l : list Row) : list Row :=
  match l with
  | [] => []
  | r :: l' => insert_row_last col r (unstable_sort col l')
  end.

(** A constructor that rejects an empty sample. *)
Definition init (m : SARIMAX) : option exn :=
  match items (endog m) with
  | [] => Some (Exception "ValueError" "empty sample")
  | _ => None
  end.

Definition last_value (s : Series) : cell :=
  last (values s) None.

(** A naive forecaster: every prediction is the last observation of the
    sample, the criterion is ten plus twice the number of AR and MA terms,
    and a model differenced both ways ([d = 1] and [D = 1]) fails to fit. *)
Definition naive_fit (m : SARIMAX) : Result Estimate :=
  let '(p, d, q) := order m in
  let '(P, D, Q, _) := seasonal_order m in
  if (d =? 1) && (D =? 1)
  then Raised (Exception "LinAlgError" "singular matrix")
  else Returned (mkEstimate (inject_Z (10 + 2 * (p + q + P + Q)))
                            (fun _ => last_value (endog m))
                            (fun _ _ => None)).

(** An optimiser that never converges. *)
Definition failing_fit (m : SARIMAX) : Result Estimate :=
  Raised (Exception "LinAlgError" "singular matrix").

(** A square root to compute with: the integer square root of the integer
    part. *)
Definition sqrt_floor (x : Q) : Q :=
  inject_Z (Z.sqrt (Qnum x / Zpos (Qden x))).

Definition month_start (y m : Z) : Timestamp := mkTS y m 1.

Definition MS : Offset := mkOffset MonthBegin 1.

(** Six monthly observations, January to June 2020. *)
Definition monthly : Series :=
  mkSeries [ (month_start 2020 1, Some 1%Q); (month_start 2020 2, Some 2%Q);
             (month_start 2020 3, Some 3%Q); (month_start 2020 4, Some 4%Q);
             (month_start 2020 5, Some 5%Q); (month_start 2020 6, Some 7%Q) ]
           (Some MS).

(** The same observations read from a file: no frequency on the index. *)
Definition monthly_no_freq : Series := mkSeries (items monthly) None.

(** Three daily observations at the end of March 2020. *)
Definition daily : Series :=
  mkSeries [ (mkTS 2020 3 29, Some 1%Q); (mkTS 2020 3 30, Some 2%Q);
             (mkTS 2020 3 31, Some 3%Q) ]
           (Some (mkOffset Day 1)).

(** The search on the six monthly observations, two periods held out. *)
Definition run : Result DataFrame * World :=
  find_optimal_pdq init naive_fit insertion_sort monthly 2 None world0.

Definition table : DataFrame :=
  match fst run with
  | Returned df => df
  | Raised _ => mkDataFrame [] []
  end.

Definition final : World := snd run.

Definition TypeError_no_freq : exn :=
  Exception "TypeError"
            "unsupported operand type(s) for *: 'int' and 'NoneType'".

Definition LinAlgError : exn := Exception "LinAlgError" "singular matrix".

(** Five daily observations, all equal to 100. *)
Definition flat : Series :=
  mkSeries (map (fun k => (mkTS 2020 1 (Z.of_nat k + 1), Some 100%Q))
                (seq 0 5))
           (Some (mkOffset Day 1)).

(** Seven daily observations that repeat every three days. *)
Definition seasonal : Series :=
  mkSeries [ (mkTS 2020 1 1, Some 1%Q); (mkTS 2020 1 2, Some 2%Q);
             (mkTS 2020 1 3, Some 3%Q); (mkTS 2020 1 4, Some 1%Q);
             (mkTS 2020 1 5, Some 2%Q); (mkTS 2020 1 6, Some 3%Q);
             (mkTS 2020 1 7, Some 1%Q) ]
           (Some (mkOffset Day 1)).

(** Five daily observations, the third of them missing. *)
Definition gappy : Series :=
  mkSeries [ (mkTS 2020 1 1, Some 1%Q); (mkTS 2020 1 2, Some 2%Q);
             (mkTS 2020 1 3, None); (mkTS 2020 1 4, Some 4%Q);
             (mkTS 2020 1 5, Some 5%Q) ]
           (Some (mkOffset Day 1)).

(** A Dickey-Fuller result with the three usual critical values. *)
Definition dftest : ADFResult :=
  mkADF (-3 # 1) (1 # 50) 1 34
        [ ("1%"%string, (-7 # 2)%Q); ("5%"%string, (-29 # 10)%Q);
          ("10%"%string, (-13 # 5)%Q) ]
        (120 # 1).

End Demo.

(* ================================================================= *)
(** ** How a search runs *)

Lemma for_each_app {A S : Type} (xs ys : list A) (body : A -> S -> M S)
      (s : S) (w : World) :
  for_each (xs ++ ys) body s w =
  bind (for_each xs body s) (fun s' => for_each ys body s') w.
Proof.
  revert s w. induction xs as [|x xs IH]; intros s w; simpl.
  - reflexivity.
  - unfold bind in *. destruct (body x s w) as [[s1|e] w1].
    + apply IH.
    + reflexivity.
Qed.

(** The nested loops visit the pairs of [list_prod] in order. *)
Lemma for_each_nested {A B S : Type} (xs : list A) (ys : list B)
      (body : A -> B -> S -> M S) (s : S) (w : World) :
  for_each xs (fun x s' => for_each ys (body x) s') s w =
  for_each (list_prod xs ys) (fun xy s' => body (fst xy) (snd xy) s') s w.
Proof.
  revert s w. induction xs as [|x xs IH]; intros s w; simpl.
  - reflexivity.
  - rewrite for_each_app. unfold bind.
    assert (E : forall s0 w0,
               for_each (map (fun y => (x, y)) ys)
                        (fun xy s' => body (fst xy) (snd xy) s') s0 w0 =
               for_each ys (body x) s0 w0).
    { clear. induction ys as [|y ys IH]; intros s0 w0; simpl.
      - reflexivity.
      - unfold bind. destruct (body x y s0 w0) as [[s1|e] w1]; auto. }
    rewrite E. destruct (for_each ys (body x) s w) as [[s1|e] w1]; auto.
Qed.

Section Runs.

Variable sarimax_init : SARIMAX -> option exn.
Variable sarimax_fit : SARIMAX -> Result Estimate.

Variable data : Series.
Variable train_delta : Z.
Variable start_train : option Timestamp.
Variable train_date : TimeOrNaT.

Local Notation "'attempt_'" :=
  (attempt sarimax_init sarimax_fit data train_delta start_train train_date).
Local Notation "'model_'" := (attempted_model data start_train train_date).
Local Notation "'score_'" := (score data train_delta).
Local Notation "'rows_'" :=
  (rows_of sarimax_init sarimax_fit data train_delta start_train train_date).
Local Notation "'prints_'" :=
  (prints_of sarimax_init sarimax_fit data train_delta start_train train_date).
Local Notation "'step_'" :=
  (step sarimax_init sarimax_fit data train_delta start_train train_date).

Lemma fit_and_score_run (pr : Order * SeasonalOrder) (w : World) :
  fit_and_score sarimax_init sarimax_fit data train_delta start_train
                train_date (fst pr) (snd pr) w =
  (attempt_ pr, log_model w [model_ pr]).
Proof.
  unfold attempt, fit_and_score, bind, new_SARIMAX, lift, ret, log_model,
    attempted_model, fit.
  destruct (sarimax_init _); simpl; [reflexivity|].
  destruct (sarimax_fit _); simpl; [|reflexivity].
  match goal with |- context [predict ?r ?a ?b] =>
    destruct (predict r a b) end; reflexivity.
Qed.

(** A successful attempt, taken apart. *)
Lemma attempt_returned (pr : Order * SeasonalOrder) (row : Row) :
  attempt_ pr = Returned row ->
  exists est prediction,
    sarimax_init (model_ pr) = None /\
    sarimax_fit (model_ pr) = Returned est /\
    (let results := mkResults (model_ pr) est in
     predict results (nobs results) (nobs results + train_delta)
     = Returned prediction) /\
    row = mkRow (format_result (fst pr) (snd pr) (est_aic est)
                               (score_ prediction))
                (est_aic est) (score_ prediction).
Proof.
  unfold attempt, fit_and_score, bind, new_SARIMAX, lift, ret, fit.
  fold (model_ pr).
  destruct (sarimax_init _) eqn:Hi; simpl; [discriminate|].
  destruct (sarimax_fit _) as [est|e] eqn:Hf; simpl; [|discriminate].
  match goal with |- context [predict ?r ?a ?b] =>
    destruct (predict r a b) as [prediction|e] eqn:Hp end;
    simpl; [|discriminate].
  intros H. injection H as <-.
  exists est, prediction. repeat split; auto.
Qed.

Lemma search_step_run (pr : Order * SeasonalOrder) (acc : list Row)
      (w : World) :
  step_ pr acc w =
  (Returned (acc ++ rows_ [pr]),
   log_prints (log_model w [model_ pr]) (prints_ [pr])).
Proof.
  unfold step, search_step, try_except, bind at 1.
  rewrite fit_and_score_run. unfold rows_of, prints_of. simpl.
  destruct (attempt_ pr) as [row|e]; simpl.
  - unfold ret, log_prints, log_model. simpl.
    rewrite !app_nil_r. reflexivity.
  - unfold bind, print, ret, log_prints, log_model, exception_prints. simpl.
    rewrite !app_nil_r, <- app_assoc. reflexivity.
Qed.

Lemma search_loop_run (pairs : list (Order * SeasonalOrder))
      (acc : list Row) (w : World) :
  for_each pairs step_ acc w =
  (Returned (acc ++ rows_ pairs),
   log_prints (log_model w (map model_ pairs)) (prints_ pairs)).
Proof.
  revert acc w. induction pairs as [|pr pairs IH]; intros acc w.
  - simpl. unfold ret, log_prints, log_model. simpl.
    rewrite !app_nil_r. destruct w; reflexivity.
  - simpl for_each. unfold bind. rewrite search_step_run, IH.
    unfold rows_of, prints_of, log_prints, log_model. simpl.
    rewrite !app_nil_r, <- !app_assoc. reflexivity.
Qed.

End Runs.

Section Search.

Variable sarimax_init : SARIMAX -> option exn.
Variable sarimax_fit : SARIMAX -> Result Estimate.
Variable sort_rows : (Row -> Q) -> list Row -> list Row.

(** A run of [find_optimal_pdq], start to end. *)
Lemma find_optimal_pdq_run (data : Series) (train_delta : Z)
      (start_train : option Timestamp) (w : World) :
  find_optimal_pdq sarimax_init sarimax_fit sort_rows data train_delta
                   start_train w =
  match find_optimal_pdq_train_date_limits data train_delta with
  | Raised e => (Raised e, w)
  | Returned _ =>
      match find_optimal_pdq_train_date data train_delta with
      | Raised e => (Raised e, w)
      | Returned train_date =>
          let df := table_of sarimax_init sarimax_fit data train_delta
                             start_train train_date in
          (Returned df,
           mkWorld (stdout w
                    ++ prints_of sarimax_init sarimax_fit data train_delta
                                 start_train train_date enumeration
                    ++ summary_prints sort_rows df)
                   (built w
                    ++ map (attempted_model data start_train train_date)
                           enumeration))
      end
  end.
Proof.
  unfold find_optimal_pdq, bind at 1, lift.
  destruct (find_optimal_pdq_train_date_limits data train_delta)
    as [[]|e]; [|reflexivity].
  unfold bind at 1.
  destruct (find_optimal_pdq_train_date data train_delta)
    as [train_date|e]; [|reflexivity].
  unfold bind at 1, tqdm. rewrite for_each_nested.
  change (for_each _ _ [] w)
    with (for_each enumeration
            (step sarimax_init sarimax_fit data train_delta start_train
                  train_date) [] w).
  rewrite search_loop_run. simpl app.
  unfold bind, print, ret, summary_prints, table_of, log_prints, log_model,
    table_columns.
  simpl. rewrite <- !app_assoc. reflexivity.
Qed.

End Search.

(* ================================================================= *)
(** ** The table and the pairs visited *)

Section Table.

Variable sarimax_init : SARIMAX -> option exn.
Variable sarimax_fit : SARIMAX -> Result Estimate.
Variable data : Series.
Variable train_delta : Z.
Variable start_train : option Timestamp.
Variable train_date : TimeOrNaT.

Local Notation "'attempt_'" :=
  (attempt sarimax_init sarimax_fit data train_delta start_train train_date).
Local Notation "'rows_'" :=
  (rows_of sarimax_init sarimax_fit data train_delta start_train train_date).

Lemma rows_of_length (pairs : list (Order * SeasonalOrder)) :
  (length (rows_ pairs) <= length pairs)%nat.
Proof.
  induction pairs as [|pr pairs IH]; simpl.
  - lia.
  - rewrite length_app.
    destruct (attempt _ _ _ _ _ _ pr); simpl; lia.
Qed.

Lemma rows_of_In (pairs : list (Order * SeasonalOrder)) pr row :
  In pr pairs -> attempt_ pr = Returned row -> In row (rows_ pairs).
Proof.
  intros Hin Hat. unfold rows_of.
  apply in_flat_map. exists pr. split; [assumption|].
  rewrite Hat. left. reflexivity.
Qed.

Lemma rows_of_inv (pairs : list (Order * SeasonalOrder)) row :
  In row (rows_ pairs) ->
  exists pr, In pr pairs /\ attempt_ pr = Returned row.
Proof.
  unfold rows_of. intros H.
  apply in_flat_map in H. destruct H as [pr [Hin H]].
  exists pr. split; [assumption|].
  destruct (attempt _ _ _ _ _ _ pr) as [r|e]; simpl in H.
  - destruct H as [->|[]]. reflexivity.
  - destruct H.
Qed.

Lemma rows_of_all_raise (pairs : list (Order * SeasonalOrder)) :
  (forall pr, In pr pairs -> exists e, attempt_ pr = Raised e) ->
  rows_ pairs = [].
Proof.
  induction pairs as [|pr pairs IH]; intros H.
  - reflexivity.
  - simpl. destruct (H pr (or_introl eq_refl)) as [e ->]. simpl.
    apply IH. intros pr' Hin. apply H. right. assumption.
Qed.

(** The key of a row names the pair it was fitted with. *)
Lemma attempt_key pr row :
  attempt_ pr = Returned row ->
  fmt_order (row_key row) = fst pr /\ fmt_seasonal (row_key row) = snd pr.
Proof.
  intros H. apply attempt_returned in H.
  destruct H as (est & prediction & _ & _ & _ & ->). split; reflexivity.
Qed.

End Table.

Lemma train_date_returned (data : Series) (train_delta : Z) (c : TimeOrNaT) :
  find_optimal_pdq_train_date data train_delta = Returned c ->
  exists f, freq data = Some f /\
            c = tn_sub (index_max data) (offset_mul train_delta f).
Proof.
  unfold find_optimal_pdq_train_date, int_mul_freq.
  destruct (freq data) as [f|]; [|discriminate].
  intros H. injection H as <-. exists f. split; reflexivity.
Qed.

Section Claims.

Variable sarimax_init : SARIMAX -> option exn.
Variable sarimax_fit : SARIMAX -> Result Estimate.
Variable sort_rows : (Row -> Q) -> list Row -> list Row.

(** A returning run, taken apart. *)
Lemma find_optimal_pdq_returned data train_delta start_train w df w' :
  find_optimal_pdq sarimax_init sarimax_fit sort_rows data train_delta
                   start_train w = (Returned df, w') ->
  exists train_date,
    find_optimal_pdq_train_date data train_delta = Returned train_date /\
    df = table_of sarimax_init sarimax_fit data train_delta start_train
                  train_date /\
    stdout w' = stdout w
                ++ prints_of sarimax_init sarimax_fit data train_delta
                             start_train train_date enumeration
                ++ summary_prints sort_rows df /\
    built w' = built w
               ++ map (attempted_model data start_train train_date)
                      enumeration.
Proof.
  rewrite find_optimal_pdq_run.
  destruct (find_optimal_pdq_train_date_limits data train_delta) as [[]|e];
    [|discriminate].
  destruct (find_optimal_pdq_train_date data train_delta) as [c|e];
    [|discriminate].
  intros H. injection H as <- <-. exists c. simpl. auto.
Qed.

(** C2. The non-seasonal orders are the eight triples over {0,1} in
    product order, the seasonal orders are those triples with period 12
    appended, and a run that returns its table has built a model for each
    of the 64 pairs, once and in the order of the nested loops; the table
    has at most 64 rows and holds the row of every pair whose attempt
    returned. *)
Theorem search_space_is_exhausted :
  fst search_space =
    [(0,0,0); (0,0,1); (0,1,0); (0,1,1); (1,0,0); (1,0,1); (1,1,0); (1,1,1)]
  /\ snd search_space =
       map (fun x => (fst (fst x), snd (fst x), snd x, 12)) (fst search_space)
  /\ length enumeration = 64%nat
  /\ forall data train_delta start_train w df w',
       find_optimal_pdq sarimax_init sarimax_fit sort_rows data train_delta
                        start_train w = (Returned df, w') ->
       exists train_date,
         find_optimal_pdq_train_date data train_delta = Returned train_date
         /\ built w' = built w
                       ++ map (attempted_model data start_train train_date)
                              enumeration
         /\ map (fun m => (order m, seasonal_order m))
                (map (attempted_model data start_train train_date)
                     enumeration) = enumeration
         /\ (length (rows df) <= 64)%nat
         /\ forall pr row,
              In pr enumeration ->
              attempt sarimax_init sarimax_fit data train_delta start_train
                      train_date pr = Returned row ->
              In row (rows df)
              /\ fmt_order (row_key row) = fst pr
              /\ fmt_seasonal (row_key row) = snd pr.
Proof.
  split; [reflexivity|]. split; [reflexivity|]. split; [reflexivity|].
  intros data train_delta start_train w df w' Hrun.
  apply find_optimal_pdq_returned in Hrun.
  destruct Hrun as (c & Hc & -> & _ & Hbuilt).
  exists c. split; [assumption|]. split; [assumption|].
  split.
  { rewrite map_map.
    transitivity (map (fun pr : Order * SeasonalOrder => pr) enumeration).
    - apply map_ext. intros [o s]. reflexivity.
    - apply map_id. }
  split.
  { unfold table_of. cbn [rows].
    change 64%nat with (length enumeration). apply rows_of_length. }
  intros pr row Hin Hat. split.
  - unfold table_of. cbn [rows]. eapply rows_of_In; eassumption.
  - eapply attempt_key; eassumption.
Qed.

(** C3, as amended. On a series whose index carries a frequency, and for
    a [train_delta] whose cutoff pandas can compute (the span fits a
    Timedelta, the date a Timestamp), the search returns a table whatever
    the attempts do: no [Exception] raised inside the loop escapes.  If
    moreover every attempt raises, the table returned has no rows and the
    columns key, aic, mse. *)
Theorem all_attempts_raise_gives_empty_table
        data train_delta start_train f w :
  freq data = Some f ->
  find_optimal_pdq_train_date_limits data train_delta = Returned tt ->
  (exists df w',
      find_optimal_pdq sarimax_init sarimax_fit sort_rows data train_delta
                       start_train w = (Returned df, w'))
  /\ ((forall pr, In pr enumeration ->
         exists e, attempt sarimax_init sarimax_fit data train_delta
                           start_train
                           (tn_sub (index_max data) (offset_mul train_delta f))
                           pr = Raised e) ->
      exists w',
        find_optimal_pdq sarimax_init sarimax_fit sort_rows data train_delta
                         start_train w
        = (Returned (mkDataFrame [] ["key"; "aic"; "mse"]%string), w')).
Proof.
  intros Hf Hlim. rewrite find_optimal_pdq_run, Hlim.
  unfold find_optimal_pdq_train_date, int_mul_freq. rewrite Hf.
  cbv beta iota zeta. split.
  - eexists. eexists. reflexivity.
  - intros Hall. eexists. unfold table_of.
    rewrite (rows_of_all_raise _ _ _ _ _ _ _ Hall). reflexivity.
Qed.

End Claims.

(* ================================================================= *)
(** ** Runs on the concrete series *)

Module DemoFacts.
Import Demo.

Lemma run_returns :
  find_optimal_pdq init naive_fit insertion_sort monthly 2 None world0
  = (Returned table, final).
Proof. vm_compute. reflexivity. Qed.

(** With the optimiser that never converges every attempt raises, on any
    series and for any cutoff. *)
Lemma failing_fit_raises data train_delta start_train train_date pr :
  exists e, attempt init failing_fit data train_delta start_train train_date pr
            = Raised e.
Proof.
  unfold attempt, fit_and_score, bind, new_SARIMAX, lift, fit, failing_fit.
  destruct (init _); simpl; eexists; reflexivity.
Qed.

End DemoFacts.

Lemma search_space_is_exhausted_witness :
  find_optimal_pdq Demo.init Demo.naive_fit Demo.insertion_sort
                   Demo.monthly 2 None world0
  = (Returned Demo.table, Demo.final)
  /\ (length (rows Demo.table) <= 64)%nat.
Proof.
  split; [exact DemoFacts.run_returns|].
  destruct (proj2 (proj2 (proj2
              (search_space_is_exhausted Demo.init Demo.naive_fit
                                         Demo.insertion_sort)))
              _ _ _ _ _ _ DemoFacts.run_returns)
    as (c & _ & _ & _ & Hlen & _).
  exact Hlen.
Defined.

(** C3, as stated, fails on a series whose index has no frequency: the
    cutoff on the first line raises [TypeError] before any attempt is made,
    although every attempt would raise.  It fails as well where the index
    has a frequency and the cutoff is out of reach: ten thousand months
    before June 2020 is no date a [Timestamp] holds, and the first line
    raises [OutOfBoundsDatetime]. *)
Lemma first_line_raises_before_any_attempt :
  find_optimal_pdq Demo.init Demo.failing_fit Demo.insertion_sort
                   Demo.monthly_no_freq 2 None world0
  = (Raised Demo.TypeError_no_freq, world0)
  /\ (forall train_date pr,
        exists e, attempt Demo.init Demo.failing_fit Demo.monthly_no_freq 2
                          None train_date pr = Raised e)
  /\ freq Demo.monthly = Some Demo.MS
  /\ (exists msg,
        find_optimal_pdq Demo.init Demo.failing_fit Demo.insertion_sort
                         Demo.monthly 10000 None world0
        = (Raised (Exception "OutOfBoundsDatetime" msg), world0))
  /\ forall train_date pr,
       exists e, attempt Demo.init Demo.failing_fit Demo.monthly 10000
                         None train_date pr = Raised e.
Proof.
  split; [vm_compute; reflexivity|].
  split; [intros; apply DemoFacts.failing_fit_raises|].
  split; [reflexivity|].
  split; [eexists; vm_compute; reflexivity|].
  intros. apply DemoFacts.failing_fit_raises.
Qed.

Lemma all_attempts_raise_gives_empty_table_witness :
  freq Demo.monthly = Some Demo.MS
  /\ find_optimal_pdq_train_date_limits Demo.monthly 2 = Returned tt
  /\ exists w',
       find_optimal_pdq Demo.init Demo.failing_fit Demo.insertion_sort
                        Demo.monthly 2 None world0
       = (Returned (mkDataFrame [] ["key"; "aic"; "mse"]%string), w').
Proof.
  split; [reflexivity|]. split; [reflexivity|].
  apply (proj2 (all_attempts_raise_gives_empty_table
                  Demo.init Demo.failing_fit Demo.insertion_sort
                  Demo.monthly 2 None Demo.MS world0 eq_refl eq_refl)).
  intros pr _. apply DemoFacts.failing_fit_raises.
Defined.

(* ================================================================= *)
(** ** The forecast and its score *)

Lemma positions_length (start stop : Z) :
  start <= stop ->
  Z.of_nat (length (positions start stop)) = stop - start + 1.
Proof.
  intros H. unfold positions. rewrite length_map, length_seq. lia.
Qed.

Lemma slice_from_tail (s : Series) (k : Z) :
  0 < k <= Z.of_nat (size s) ->
  items (slice_from s (- k)) = skipn (size s - Z.to_nat k) (items s)
  /\ Z.of_nat (size (slice_from s (- k))) = k.
Proof.
  intros [Hpos Hle]. unfold slice_from, py_slice_from, size in *. simpl.
  destruct (0 <=? - k) eqn:E; [apply Z.leb_le in E; lia|].
  rewrite Z.opp_involutive. split; [reflexivity|].
  rewrite length_skipn. lia.
Qed.

Lemma Qsum_mean (xs : list Q) :
  xs <> [] -> (Qsum xs == Qnat (length xs) * mean_of xs)%Q.
Proof.
  intros Hne. unfold mean_of.
  assert (Hn : ~ (Qnat (length xs) == 0)%Q).
  { unfold Qnat, Qeq. simpl. destruct xs; [congruence|]. simpl length. lia. }
  field. exact Hn.
Qed.

Lemma present_pow2 (l : list (Timestamp * cell)) :
  length (present (map snd (map (fun it => (fst it, cell_pow2 (snd it))) l)))
  = length (present (map snd l)).
Proof.
  induction l as [|[t [x|]] l IH]; simpl; auto.
Qed.

(** The score that is recorded is the mean of the squared differences
    multiplied by the number of dates the forecast and the tail share. *)
Lemma sum_is_count_times_mean (prediction actual : Series) (v : Q) :
  spec_mean_squared_error prediction actual = Some v ->
  (series_sum (series_pow2 (series_sub prediction actual))
   == Qnat (count (series_sub prediction actual)) * v)%Q.
Proof.
  unfold spec_mean_squared_error, series_mean, series_sum, count.
  set (sq := series_pow2 (series_sub prediction actual)).
  assert (Hlen : length (present (values sq))
                 = length (present (values (series_sub prediction actual)))).
  { subst sq. unfold values, series_pow2. simpl. apply present_pow2. }
  rewrite <- Hlen.
  destruct (present (values sq)) as [|x xs] eqn:E; [discriminate|].
  intros H. injection H as <-. apply Qsum_mean. discriminate.
Qed.

Section Forecast.

Variable sarimax_init : SARIMAX -> option exn.
Variable sarimax_fit : SARIMAX -> Result Estimate.
Variable sort_rows : (Row -> Q) -> list Row -> list Row.

(** The forecast behind a successful attempt, and what it is scored
    against. *)
Lemma attempt_forecast_shape
      data train_delta start_train train_date pr row :
  attempt sarimax_init sarimax_fit data train_delta start_train train_date
          pr = Returned row ->
  exists est prediction last f,
    sarimax_fit (attempted_model data start_train train_date pr)
    = Returned est
    /\ predict (mkResults (attempted_model data start_train train_date pr)
                          est)
               (Z.of_nat (size (loc data start_train train_date)))
               (Z.of_nat (size (loc data start_train train_date))
                + train_delta)
       = Returned prediction
    /\ index_max (loc data start_train train_date) = At last
    /\ freq data = Some f
    /\ 0 <= train_delta
    /\ Z.of_nat (size prediction) = train_delta + 1
    /\ index prediction
       = map (fun k => ts_add last (offset_mul (Z.of_nat k + 1) f))
             (seq 0 (Z.to_nat (train_delta + 1)))
    /\ row_mse row
       = series_sum (series_pow2
                       (series_sub prediction
                                   (slice_from data (- train_delta))))
    /\ (0 < train_delta <= Z.of_nat (size data) ->
        items (slice_from data (- train_delta))
        = skipn (size data - Z.to_nat train_delta) (items data)
        /\ Z.of_nat (size (slice_from data (- train_delta))) = train_delta).
Proof.
  intros Hat. apply attempt_returned in Hat.
  destruct Hat as (est & prediction & _ & Hfit & Hp & ->).
  cbv zeta in Hp. unfold nobs in Hp. cbn [model endog attempted_model] in Hp.
  set (s := loc data start_train train_date) in *.
  set (n := Z.of_nat (size s)) in *.
  assert (Hp' := Hp). unfold predict in Hp'.
  cbn [model endog estimate attempted_model] in Hp'. fold s in Hp'.
  destruct (n + train_delta <? n) eqn:Hlt; [discriminate|].
  apply Z.ltb_ge in Hlt.
  destruct (est_predict_failure est n (n + train_delta)); [discriminate|].
  destruct (index_max s) as [|last] eqn:Hmax; [discriminate|].
  destruct (freq s) as [f|] eqn:Hfreq; [|discriminate].
  injection Hp' as <-.
  exists est, (mkSeries
                 (map (fun i => (position_date s last f i, est_mean est i))
                      (positions n (n + train_delta))) (Some f)), last, f.
  split; [exact Hfit|]. split; [exact Hp|]. split; [reflexivity|].
  split; [exact Hfreq|]. split; [lia|].
  split.
  { unfold size. cbn [items]. rewrite length_map.
    rewrite positions_length by lia. lia. }
  split.
  { unfold index. cbn [items]. rewrite map_map. cbn [fst].
    unfold positions. rewrite map_map.
    replace (n + train_delta - n + 1) with (train_delta + 1) by lia.
    apply map_ext. intros k. unfold position_date. fold n.
    destruct (n + Z.of_nat k <? n) eqn:E; [apply Z.ltb_lt in E; lia|].
    f_equal. f_equal. lia. }
  split; [reflexivity|].
  apply slice_from_tail.
Qed.

(** C4, as amended. In a run that returns, every row of the table comes
    from a forecast over the positions [nobs] through [nobs + train_delta],
    the last one included: it has [train_delta + 1] values, labelled with
    the dates one to [train_delta + 1] frequency steps after the last date
    of the fitted sample.  The score of the row is computed from that
    forecast and the positional tail [data[-train_delta:]], which for
    [0 < train_delta <= len(data)] is the last [train_delta]
    observations. *)
Theorem forecast_spans_one_more_than_train_delta
        data train_delta start_train w df w' :
  find_optimal_pdq sarimax_init sarimax_fit sort_rows data train_delta
                   start_train w = (Returned df, w') ->
  exists f,
    freq data = Some f
    /\ (0 < train_delta <= Z.of_nat (size data) ->
        items (slice_from data (- train_delta))
        = skipn (size data - Z.to_nat train_delta) (items data)
        /\ Z.of_nat (size (slice_from data (- train_delta))) = train_delta)
    /\ forall row, In row (rows df) ->
         exists pr est prediction last,
           In pr enumeration
           /\ fmt_order (row_key row) = fst pr
           /\ fmt_seasonal (row_key row) = snd pr
           /\ fit sarimax_fit
                  (attempted_model data start_train
                     (tn_sub (index_max data) (offset_mul train_delta f)) pr)
              = Returned
                  (mkResults
                     (attempted_model data start_train
                        (tn_sub (index_max data) (offset_mul train_delta f))
                        pr)
                     est)
           /\ (let results :=
                 mkResults
                   (attempted_model data start_train
                      (tn_sub (index_max data) (offset_mul train_delta f)) pr)
                   est in
               predict results (nobs results) (nobs results + train_delta)
               = Returned prediction)
           /\ index_max (loc data start_train
                             (tn_sub (index_max data)
                                     (offset_mul train_delta f)))
              = At last
           /\ 0 <= train_delta
           /\ Z.of_nat (size prediction) = train_delta + 1
           /\ index prediction
              = map (fun k => ts_add last (offset_mul (Z.of_nat k + 1) f))
                    (seq 0 (Z.to_nat (train_delta + 1)))
           /\ row_mse row
              = series_sum (series_pow2
                              (series_sub prediction
                                          (slice_from data (- train_delta)))).
Proof.
  intros Hrun. apply find_optimal_pdq_returned in Hrun.
  destruct Hrun as (c & Hc & -> & _ & _).
  destruct (train_date_returned _ _ _ Hc) as (f & Hf & ->).
  exists f. split; [exact Hf|].
  assert (Hrows :
            forall row,
              In row (rows (table_of sarimax_init sarimax_fit data train_delta
                              start_train
                              (tn_sub (index_max data)
                                      (offset_mul train_delta f)))) ->
              exists pr,
                In pr enumeration
                /\ attempt sarimax_init sarimax_fit data train_delta
                           start_train
                           (tn_sub (index_max data) (offset_mul train_delta f))
                           pr = Returned row).
  { intros row Hrow. unfold table_of in Hrow. cbn [rows] in Hrow.
    apply rows_of_inv in Hrow. exact Hrow. }
  split; [apply slice_from_tail|].
  intros row Hrow. destruct (Hrows row Hrow) as (pr & Hin & Hat).
  destruct (attempt_key _ _ _ _ _ _ _ _ Hat) as [Hko Hks].
  apply attempt_forecast_shape in Hat.
  destruct Hat as (est & prediction & last & f' & Hfit & Hp & Hmax & Hf' & Hpos
                   & Hsize & Hidx & Hmse & _).
  exists pr, est, prediction, last.
  split; [exact Hin|]. split; [exact Hko|]. split; [exact Hks|].
  split; [unfold fit; rewrite Hfit; reflexivity|].
  split; [exact Hp|]. split; [exact Hmax|]. split; [exact Hpos|].
  split; [exact Hsize|].
  split; [|exact Hmse].
  assert (Hff : f' = f) by congruence.
  rewrite <- Hff. exact Hidx.
Qed.

End Forecast.

(** C4, as stated, fails: with two periods held out the forecast that is
    scored has three values, not two. *)
Lemma forecast_has_three_values_for_two_periods :
  match fit Demo.naive_fit
            (attempted_model Demo.monthly None
                             (At (Demo.month_start 2020 4))
                             ((0,0,0), (0,0,0,12))) with
  | Returned results =>
      match predict results (nobs results) (nobs results + 2) with
      | Returned prediction =>
          index prediction = [Demo.month_start 2020 5; Demo.month_start 2020 6;
                              Demo.month_start 2020 7]
          /\ size prediction = 3%nat
          /\ size (slice_from Demo.monthly (- 2)) = 2%nat
      | Raised _ => False
      end
  | Raised _ => False
  end.
Proof. vm_compute. repeat split; reflexivity. Qed.

Lemma forecast_spans_one_more_than_train_delta_witness :
  find_optimal_pdq Demo.init Demo.naive_fit Demo.insertion_sort
                   Demo.monthly 2 None world0
  = (Returned Demo.table, Demo.final)
  /\ forall row, In row (rows Demo.table) ->
       exists prediction,
         Z.of_nat (size prediction) = 2 + 1
         /\ row_mse row
            = series_sum (series_pow2
                            (series_sub prediction
                                        (slice_from Demo.monthly (- 2)))).
Proof.
  split; [exact DemoFacts.run_returns|].
  destruct (forecast_spans_one_more_than_train_delta
              Demo.init Demo.naive_fit Demo.insertion_sort
              _ _ _ _ _ _ DemoFacts.run_returns)
    as (f & _ & _ & Hrows).
  intros row Hrow.
  destruct (Hrows row Hrow)
    as (pr & est & prediction & last & _ & _ & _ & _ & _ & _ & _ & Hsize & _
        & Hmse).
  exists prediction. split; [exact Hsize | exact Hmse].
Defined.

(** C1. On the six monthly observations with two periods held out, the
    naive forecast of 4 misses the tail observations 5 and 7 by 1 and 3:
    the score recorded for the first combination is the sum 10 of the
    squared differences, where their mean is 5. *)
Theorem recorded_score_is_sum_of_squares :
  match fit Demo.naive_fit
            (attempted_model Demo.monthly None
                             (At (Demo.month_start 2020 4))
                             ((0,0,0), (0,0,0,12))) with
  | Returned results =>
      match predict results (nobs results) (nobs results + 2) with
      | Returned prediction =>
          values prediction = [Some 4%Q; Some 4%Q; Some 4%Q]
          /\ values (slice_from Demo.monthly (- 2)) = [Some 5%Q; Some 7%Q]
          /\ attempt Demo.init Demo.naive_fit Demo.monthly 2 None
                     (At (Demo.month_start 2020 4)) ((0,0,0), (0,0,0,12))
             = Returned (mkRow (format_result (0,0,0) (0,0,0,12)
                                              (aic results)
                                              (score Demo.monthly 2 prediction))
                               (aic results)
                               (score Demo.monthly 2 prediction))
          /\ (score Demo.monthly 2 prediction == 10)%Q
          /\ match spec_mean_squared_error prediction
                                           (slice_from Demo.monthly (- 2)) with
             | Some v => (v == 5)%Q
             | None => False
             end
      | Raised _ => False
      end
  | Raised _ => False
  end.
Proof. vm_compute. repeat split; reflexivity. Qed.

(** C7. On the same run sixteen combinations fail to fit.  Each of them
    leaves the same two lines on the output: the first names all eight
    orders and all eight seasonal orders of the grid, not the pair that
    failed, and the second is the exception. *)
Theorem failed_attempts_log_the_whole_grid :
  attempt Demo.init Demo.naive_fit Demo.monthly 2 None
          (At (Demo.month_start 2020 4)) ((0,1,0), (0,1,0,12))
  = Raised Demo.LinAlgError
  /\ attempt Demo.init Demo.naive_fit Demo.monthly 2 None
             (At (Demo.month_start 2020 4)) ((1,1,1), (1,1,1,12))
     = Raised Demo.LinAlgError
  /\ length (rows Demo.table) = 48%nat
  /\ stdout Demo.final
     = flat_map
         (fun _ =>
            [ mkPrint
                [ VStr "exception in:";
                  VOrders [(0,0,0); (0,0,1); (0,1,0); (0,1,1);
                           (1,0,0); (1,0,1); (1,1,0); (1,1,1)];
                  VSeasonalOrders
                    [(0,0,0,12); (0,0,1,12); (0,1,0,12); (0,1,1,12);
                     (1,0,0,12); (1,0,1,12); (1,1,0,12); (1,1,1,12)] ]
                space;
              mkPrint [VExn Demo.LinAlgError] space ])
         (seq 0 16)
       ++ summary_prints Demo.insertion_sort Demo.table.
Proof. vm_compute. repeat split; reflexivity. Qed.

(* ================================================================= *)
(** ** The two training cutoffs *)

Lemma days_in_month_ge_28 (y m : Z) : 28 <= days_in_month y m.
Proof.
  unfold days_in_month.
  destruct (m =? 2); [destruct (is_leap y); lia|].
  destruct ((m =? 4) || (m =? 6) || (m =? 9) || (m =? 11)); lia.
Qed.

(** On the first day of a month, going back [k] month-start steps and going
    back [k] calendar months land on the same date. *)
Lemma month_start_steps_are_calendar_months (t : Timestamp) (k : Z) :
  day t = 1 ->
  ts_sub t (offset_mul k (mkOffset MonthBegin 1))
  = ts_sub t (DateOffset_months k).
Proof.
  intros Hd. unfold ts_sub, ts_add, offset_neg, offset_mul, DateOffset_months.
  cbn [kind steps]. rewrite Hd.
  replace ((- (k * 1) <=? 0) && (1 <? 1)) with false
    by (rewrite andb_false_r; reflexivity).
  unfold shift_month. rewrite Hd, Z.mul_1_r.
  rewrite Z.min_l; [reflexivity|].
  pose proof (days_in_month_ge_28
                (year t + (month t - 1 + - k) / 12)
                ((month t - 1 + - k) mod 12 + 1)). lia.
Qed.

Section Cutoffs.

Variable sarimax_init : SARIMAX -> option exn.
Variable sarimax_fit : SARIMAX -> Result Estimate.


End Cutoffs.



(* ================================================================= *)
(** ** Rolling statistics *)

Lemma present_app (l1 l2 : list cell) :
  present (l1 ++ l2) = present l1 ++ present l2.
Proof. unfold present. apply flat_map_app. Qed.

Lemma present_complete (l : list cell) :
  Forall (fun c : cell => c <> None) l -> length (present l) = length l.
Proof.
  induction 1 as [|c l Hc _ IH]; simpl; [reflexivity|].
  destruct c as [x|]; [|congruence]. simpl. rewrite IH. reflexivity.
Qed.

Lemma in_firstn {A : Type} (n : nat) (l : list A) (x : A) :
  In x (firstn n l) -> In x l.
Proof.
  intros H. rewrite <- (firstn_skipn n l). apply in_or_app. left. exact H.
Qed.

Lemma in_skipn {A : Type} (n : nat) (l : list A) (x : A) :
  In x (skipn n l) -> In x l.
Proof.
  intros H. rewrite <- (firstn_skipn n l). apply in_or_app. right. exact H.
Qed.

Lemma window_at_complete (w i : nat) (l : list cell) :
  Forall (fun c : cell => c <> None) l ->
  (i < length l)%nat ->
  length (present (window_at w i l)) = Nat.min w (i + 1).
Proof.
  intros Hl Hi. unfold window_at. rewrite present_complete.
  - rewrite length_firstn, length_skipn. lia.
  - apply Forall_forall. intros c Hc.
    apply (proj1 (Forall_forall _ _) Hl).
    apply in_firstn in Hc. apply in_skipn in Hc. exact Hc.
Qed.

(** Counting the values of a statistic that is missing exactly on the
    first [k] positions. *)
Lemma present_after_threshold (g : nat -> cell) (k n : nat) :
  (forall i, (i < n)%nat -> (g i = None <-> (i < k)%nat)) ->
  length (present (map g (seq 0 n))) = (n - k)%nat.
Proof.
  induction n as [|n IH]; intros H.
  - reflexivity.
  - rewrite seq_S, map_app, present_app, length_app, IH
      by (intros i Hi; apply H; lia).
    specialize (H n (Nat.lt_succ_diag_r n)).
    change (present (map g [(0 + n)%nat]))
      with (match g n with Some x => [x] | None => [] end ++ []).
    rewrite app_nil_r.
    destruct (g n) as [x|] eqn:E; cbn [length].
    + assert (~ (n < k)%nat) by (intros Hlt; apply H in Hlt; discriminate).
      lia.
    + assert (n < k)%nat by (apply H; reflexivity). lia.
Qed.

Lemma rolling_apply_values (stat : nat -> list cell -> cell) (r : Rolling) :
  values (rolling_apply stat r)
  = map (fun i => stat (min_periods r)
                       (window_at (window r) i (values (obj r))))
        (seq 0 (size (obj r))).
Proof. unfold rolling_apply, values. cbn [items]. apply map_map. Qed.

Lemma nth_map_seq (g : nat -> cell) (n i : nat) :
  (i < n)%nat -> nth i (map g (seq 0 n)) None = g i.
Proof.
  intros Hi.
  rewrite (nth_indep _ None (g 0%nat))
    by (rewrite length_map, length_seq; exact Hi).
  rewrite map_nth, seq_nth by exact Hi. reflexivity.
Qed.

Lemma rolling_apply_nth (stat : nat -> list cell -> cell) (r : Rolling)
      (i : nat) :
  (i < size (obj r))%nat ->
  nth i (values (rolling_apply stat r)) None
  = stat (min_periods r) (window_at (window r) i (values (obj r))).
Proof.
  intros Hi. rewrite rolling_apply_values.
  apply (nth_map_seq
           (fun i => stat (min_periods r)
                          (window_at (window r) i (values (obj r))))).
  exact Hi.
Qed.

Section Rolling.

Variable sqrt : Q -> Q.
Variable s : Series.
Variable w : nat.
Hypothesis Hcomplete : complete s.

Local Notation "'roll_'" := (mkRolling s w w).

Lemma values_length : length (values s) = size s.
Proof. unfold values, size. apply length_map. Qed.

(** The rolling mean is missing exactly before position [w - 1]. *)
Lemma window_mean_missing (i : nat) :
  (0 < w)%nat -> (i < size s)%nat ->
  (window_mean w (window_at w i (values s)) = None <-> (i < w - 1)%nat).
Proof.
  intros Hw Hi. unfold window_mean.
  rewrite window_at_complete by (try rewrite values_length; assumption).
  destruct (w <=? Nat.min w (i + 1))%nat eqn:E1;
    destruct (0 <? Nat.min w (i + 1))%nat eqn:E2; simpl;
    try apply Nat.leb_le in E1; try apply Nat.leb_gt in E1;
    try apply Nat.ltb_lt in E2; try apply Nat.ltb_ge in E2;
    split; intros H; try discriminate; try reflexivity; lia.
Qed.

(** With a window of two or more, so is the rolling deviation. *)
Lemma window_std_missing (i : nat) :
  (1 < w)%nat -> (i < size s)%nat ->
  (window_std sqrt w (window_at w i (values s)) = None <-> (i < w - 1)%nat).
Proof.
  intros Hw Hi. unfold window_std.
  rewrite window_at_complete by (try rewrite values_length; assumption).
  destruct (w <=? Nat.min w (i + 1))%nat eqn:E1;
    destruct (1 <? Nat.min w (i + 1))%nat eqn:E2; simpl;
    try apply Nat.leb_le in E1; try apply Nat.leb_gt in E1;
    try apply Nat.ltb_lt in E2; try apply Nat.ltb_ge in E2;
    split; intros H; try discriminate; try reflexivity; lia.
Qed.

(** A window of one never has the two observations a deviation needs. *)
Lemma window_std_one (i : nat) :
  w = 1%nat -> (i < size s)%nat ->
  window_std sqrt w (window_at w i (values s)) = None.
Proof.
  intros Hw Hi. unfold window_std.
  rewrite window_at_complete by (try rewrite values_length; assumption).
  subst w. replace (Nat.min 1 (i + 1)) with 1%nat by lia. reflexivity.
Qed.

Lemma rolling_mean_count :
  (0 < w <= size s)%nat ->
  count (rolling_mean roll_) = (size s - w + 1)%nat.
Proof.
  intros Hw. unfold count, rolling_mean. rewrite rolling_apply_values.
  cbn [obj window min_periods].
  rewrite (present_after_threshold _ (w - 1)).
  - lia.
  - intros i Hi. apply window_mean_missing; lia.
Qed.

Lemma rolling_std_count :
  (1 < w <= size s)%nat ->
  count (rolling_std sqrt roll_) = (size s - w + 1)%nat.
Proof.
  intros Hw. unfold count, rolling_std. rewrite rolling_apply_values.
  cbn [obj window min_periods].
  rewrite (present_after_threshold _ (w - 1)).
  - lia.
  - intros i Hi. apply window_std_missing; lia.
Qed.

Lemma rolling_std_count_one :
  w = 1%nat -> count (rolling_std sqrt roll_) = 0%nat.
Proof.
  intros Hw. unfold count, rolling_std. rewrite rolling_apply_values.
  cbn [obj window min_periods].
  rewrite (present_after_threshold _ (size s)).
  - lia.
  - intros i Hi. split; [intros _; exact Hi|intros _].
    apply window_std_one; assumption.
Qed.

End Rolling.

(** C9, as amended. On a series of [n] observations, none missing and all
    of moderate size (so that the running sums pandas keeps in double
    precision stay finite), and a window [0 < w <= n], [test_stationarity]
    draws a rolling mean with exactly [n - w + 1] values, missing on the
    first [w - 1] positions and nowhere else.  The rolling standard
    deviation has the same shape when [w >= 2]; for [w = 1] every one of
    its values is missing. *)
Theorem rolling_statistics_counts
        (sqrt : Q -> Q) (timeseries : Series) (window : Z) :
  complete timeseries ->
  moderate timeseries ->
  0 < window <= Z.of_nat (size timeseries) ->
  exists chart,
    test_stationarity sqrt timeseries window = Returned chart
    /\ Z.of_nat (count (rolmean chart))
       = Z.of_nat (size timeseries) - window + 1
    /\ (forall i, (i < size timeseries)%nat ->
          (nth i (values (rolmean chart)) None = None
           <-> Z.of_nat i < window - 1))
    /\ (1 < window ->
        Z.of_nat (count (rolstd chart))
        = Z.of_nat (size timeseries) - window + 1
        /\ forall i, (i < size timeseries)%nat ->
             (nth i (values (rolstd chart)) None = None
              <-> Z.of_nat i < window - 1))
    /\ (window = 1 -> count (rolstd chart) = 0%nat).
Proof.
  intros Hc _ [Hpos Hle]. unfold test_stationarity, rolling.
  destruct (window <? 0) eqn:E; [apply Z.ltb_lt in E; lia|].
  eexists. split; [reflexivity|]. cbn [rolmean rolstd].
  set (w := Z.to_nat window).
  assert (Hw : (0 < w <= size timeseries)%nat) by lia.
  split; [rewrite rolling_mean_count by assumption; lia|].
  split.
  { intros i Hi. unfold rolling_mean.
    rewrite rolling_apply_nth by exact Hi. cbn [obj Pandas.window min_periods].
    rewrite window_mean_missing by (assumption || lia). lia. }
  split.
  { intros H1. split.
    - rewrite rolling_std_count by (assumption || lia). lia.
    - intros i Hi. unfold rolling_std.
      rewrite rolling_apply_nth by exact Hi. cbn [obj Pandas.window min_periods].
      rewrite window_std_missing by (assumption || lia). lia. }
  intros H1. apply rolling_std_count_one; [assumption|lia].
Qed.

(** C9, as stated, fails for a window of one: on three observations the
    rolling mean has its three values, the rolling standard deviation has
    none.  It fails as well where an observation is missing: with the
    third of five observations missing and a window of two, each statistic
    has two values, not four. *)
Lemma rolling_statistics_can_be_missing :
  match test_stationarity Demo.sqrt_floor Demo.daily 1 with
  | Returned chart =>
      size Demo.daily = 3%nat
      /\ values (rolmean chart) = [Some (1 / 1)%Q; Some (2 / 1)%Q; Some (3 / 1)%Q]
      /\ values (rolstd chart) = [None; None; None]
      /\ count (rolstd chart) = 0%nat
  | Raised _ => False
  end
  /\ match test_stationarity Demo.sqrt_floor Demo.gappy 2 with
     | Returned chart =>
         size Demo.gappy = 5%nat
         /\ map notna (values Demo.gappy) = [true; true; false; true; true]
         /\ map notna (values (rolmean chart))
            = [false; true; false; false; true]
         /\ count (rolmean chart) = 2%nat
         /\ map notna (values (rolstd chart))
            = [false; true; false; false; true]
         /\ count (rolstd chart) = 2%nat
     | Raised _ => False
     end.
Proof. vm_compute. repeat split; reflexivity. Qed.

Lemma rolling_statistics_counts_witness :
  complete Demo.monthly
  /\ moderate Demo.monthly
  /\ (0 < 2 <= Z.of_nat (size Demo.monthly))
  /\ exists chart,
       test_stationarity Demo.sqrt_floor Demo.monthly 2 = Returned chart
       /\ Z.of_nat (count (rolmean chart)) = 6 - 2 + 1
       /\ Z.of_nat (count (rolstd chart)) = 6 - 2 + 1.
Proof.
  assert (Hc : complete Demo.monthly).
  { unfold complete. vm_compute. repeat constructor; discriminate. }
  assert (Hm : moderate Demo.monthly).
  { unfold moderate. cbn [values Demo.monthly items map snd].
    repeat constructor; vm_compute; discriminate. }
  assert (Hw : 0 < 2 <= Z.of_nat (size Demo.monthly))
    by (vm_compute; split; [reflexivity | discriminate]).
  split; [exact Hc|]. split; [exact Hm|]. split; [exact Hw|].
  destruct (rolling_statistics_counts Demo.sqrt_floor Demo.monthly 2
                                      Hc Hm Hw)
    as (chart & Hrun & Hmean & _ & Hstd & _).
  exists chart. split; [exact Hrun|]. split; [exact Hmean|].
  apply Hstd. lia.
Defined.

(* ================================================================= *)
(** ** Sorted views of the table *)

Lemma occurs_before_cons {A : Type} (h x y : A) (l : list A) :
  occurs_before x y l -> occurs_before x y (h :: l).
Proof.
  intros (l1 & l2 & l3 & ->). exists (h :: l1), l2, l3. reflexivity.
Qed.

Lemma occurs_before_filter {A : Type} (p : A -> bool) (x y : A) (l : list A) :
  p x = true -> p y = true ->
  occurs_before x y l -> occurs_before x y (filter p l).
Proof.
  intros Hx Hy (l1 & l2 & l3 & ->).
  exists (filter p l1), (filter p l2), (filter p l3).
  rewrite filter_app. simpl. rewrite Hx, filter_app. simpl. rewrite Hy.
  reflexivity.
Qed.

Lemma occurs_before_unfilter {A : Type} (p : A -> bool) (x y : A)
      (l : list A) :
  occurs_before x y (filter p l) -> occurs_before x y l.
Proof.
  induction l as [|h t IH]; intros (l1 & l2 & l3 & E).
  - destruct l1; discriminate.
  - simpl in E. destruct (p h).
    + destruct l1 as [|h' l1]; simpl in E; injection E as -> E.
      * assert (Hy : In y t).
        { apply (proj1 (filter_In p y t)). rewrite E.
          apply in_or_app. right. left. reflexivity. }
        apply in_split in Hy. destruct Hy as (t1 & t2 & ->).
        exists [], t1, t2. reflexivity.
      * apply occurs_before_cons. apply IH. exists l1, l2, l3. exact E.
    + apply occurs_before_cons. apply IH. exists l1, l2, l3. exact E.
Qed.

(** Under a stable kernel, rows that tie on the column stay in table
    order. *)
Lemma stable_keeps_ties (srt : (Row -> Q) -> list Row -> list Row)
      (col : Row -> Q) (l : list Row) (x y : Row) :
  stable srt -> (col x == col y)%Q ->
  occurs_before x y l -> occurs_before x y (srt col l).
Proof.
  intros Hst Htie Hb.
  apply (occurs_before_unfilter (fun r => Qeq_bool (col r) (col y))).
  rewrite Hst. apply occurs_before_filter; [| |exact Hb].
  - apply Qeq_bool_iff. exact Htie.
  - apply Qeq_bool_iff. reflexivity.
Qed.

Lemma sorted_column (col : Row -> Q) (l : list Row) :
  Sorted (fun a b => (col a <= col b)%Q) l ->
  StronglySorted (fun a b => (col a <= col b)%Q) l.
Proof.
  apply Sorted_StronglySorted. intros a b c Hab Hbc.
  eapply Qle_trans; eassumption.
Qed.

Lemma StronglySorted_app_le {A : Type} (R : A -> A -> Prop) (l1 l2 : list A) :
  StronglySorted R (l1 ++ l2) ->
  forall x y, In x l1 -> In y l2 -> R x y.
Proof.
  induction l1 as [|h t IH]; intros Hs x y Hx Hy.
  - destruct Hx.
  - simpl in Hs. inversion Hs as [|? ? Hs' Hall]; subst.
    destruct Hx as [<-|Hx].
    + apply (proj1 (Forall_forall _ _) Hall). apply in_or_app. right. exact Hy.
    + eapply IH; eassumption.
Qed.

Lemma StronglySorted_non_decreasing (col : Row -> Q) (l : list Row) :
  StronglySorted (fun a b => (col a <= col b)%Q) l ->
  non_decreasing (map col l).
Proof.
  induction 1 as [|a l Hs IH Hall]; intros i j Hij; simpl in *.
  - lia.
  - destruct j as [|j].
    + replace i with 0%nat by lia. apply Qle_refl.
    + destruct i as [|i].
      * assert (Hin : In (nth j (map col l) 0%Q) (map col l))
          by (apply nth_In; lia).
        apply in_map_iff in Hin. destruct Hin as (b & <- & Hb).
        apply (proj1 (Forall_forall _ _) Hall). exact Hb.
      * apply IH. lia.
Qed.

(** *** The insertion sort is such a kernel, and a stable one *)

Module SortFacts.
Import Demo.

Lemma insert_row_perm (col : Row -> Q) (r : Row) (l : list Row) :
  Permutation (r :: l) (insert_row col r l).
Proof.
  induction l as [|x l IH]; simpl.
  - apply Permutation_refl.
  - destruct (Qle_bool (col r) (col x)).
    + apply Permutation_refl.
    + eapply perm_trans; [apply perm_swap|]. apply perm_skip. exact IH.
Qed.

Lemma insert_row_sorted (col : Row -> Q) (r : Row) (l : list Row) :
  Sorted (fun a b => (col a <= col b)%Q) l ->
  Sorted (fun a b => (col a <= col b)%Q) (insert_row col r l).
Proof.
  induction 1 as [|x l Hs IH Hhd]; simpl.
  - repeat constructor.
  - destruct (Qle_bool (col r) (col x)) eqn:E.
    + apply Qle_bool_iff in E. repeat constructor; assumption.
    + assert (Hxr : (col x <= col r)%Q).
      { apply Qlt_le_weak. apply Qnot_le_lt. intros H.
        apply Qle_bool_iff in H. congruence. }
      constructor; [exact IH|].
      destruct l as [|y l]; simpl.
      * constructor. exact Hxr.
      * inversion Hhd; subst.
        destruct (Qle_bool (col r) (col y)); constructor; assumption.
Qed.

Lemma insert_row_filter (col : Row -> Q) (v : Q) (r : Row) (l : list Row) :
  filter (fun x => Qeq_bool (col x) v) (insert_row col r l)
  = filter (fun x => Qeq_bool (col x) v) (r :: l).
Proof.
  induction l as [|x l IH]; simpl.
  - reflexivity.
  - destruct (Qle_bool (col r) (col x)) eqn:E; simpl; [reflexivity|].
    rewrite IH. simpl.
    destruct (Qeq_bool (col x) v) eqn:Ex;
      destruct (Qeq_bool (col r) v) eqn:Er; try reflexivity.
    exfalso. apply Qeq_bool_iff in Ex, Er.
    assert (H : Qle_bool (col r) (col x) = true).
    { apply Qle_bool_iff. rewrite Ex, Er. apply Qle_refl. }
    congruence.
Qed.

Lemma insertion_sort_sorts : sorts_ascending insertion_sort.
Proof.
  intros col l. induction l as [|r l [IHp IHs]]; simpl.
  - split; constructor.
  - split.
    + eapply perm_trans; [apply perm_skip, IHp|]. apply insert_row_perm.
    + apply insert_row_sorted. exact IHs.
Qed.

Lemma insertion_sort_stable : stable insertion_sort.
Proof.
  intros col l v. induction l as [|r l IH]; simpl.
  - reflexivity.
  - rewrite insert_row_filter. simpl. rewrite IH. reflexivity.
Qed.

Lemma insert_row_last_perm (col : Row -> Q) (r : Row) (l : list Row) :
  Permutation (r :: l) (insert_row_last col r l).
Proof.
  induction l as [|x l IH]; simpl.
  - apply Permutation_refl.
  - destruct (Qle_bool (col x) (col r)).
    + eapply perm_trans; [apply perm_swap|]. apply perm_skip. exact IH.
    + apply Permutation_refl.
Qed.

Lemma insert_row_last_sorted (col : Row -> Q) (r : Row) (l : list Row) :
  Sorted (fun a b => (col a <= col b)%Q) l ->
  Sorted (fun a b => (col a <= col b)%Q) (insert_row_last col r l).
Proof.
  induction 1 as [|x l Hs IH Hhd]; simpl.
  - repeat constructor.
  - destruct (Qle_bool (col x) (col r)) eqn:E.
    + apply Qle_bool_iff in E.
      constructor; [exact IH|].
      destruct l as [|y l]; simpl.
      * constructor. exact E.
      * inversion Hhd; subst.
        destruct (Qle_bool (col y) (col r)); constructor; assumption.
    + assert (Hrx : (col r <= col x)%Q).
      { apply Qlt_le_weak. apply Qnot_le_lt. intros H.
        apply Qle_bool_iff in H. congruence. }
      repeat constructor; assumption.
Qed.

(** The other insertion sort returns the rows in ascending order as well. *)
Lemma unstable_sort_sorts : sorts_ascending unstable_sort.
Proof.
  intros col l. induction l as [|r l [IHp IHs]]; simpl.
  - split; constructor.
  - split.
    + eapply perm_trans; [apply perm_skip, IHp|]. apply insert_row_last_perm.
    + apply insert_row_last_sorted. exact IHs.
Qed.

End SortFacts.

Lemma enumeration_ranks : map enumeration_rank enumeration = seq 0 64.
Proof. reflexivity. Qed.

Lemma enumeration_NoDup : NoDup enumeration.
Proof.
  apply (NoDup_map_inv enumeration_rank). rewrite enumeration_ranks.
  apply seq_NoDup.
Qed.

Section Order.

Variable sarimax_init : SARIMAX -> option exn.
Variable sarimax_fit : SARIMAX -> Result Estimate.
Variable sort_rows : (Row -> Q) -> list Row -> list Row.

Lemma rows_of_app data train_delta start_train train_date
      (l1 l2 : list (Order * SeasonalOrder)) :
  rows_of sarimax_init sarimax_fit data train_delta start_train train_date
          (l1 ++ l2)
  = rows_of sarimax_init sarimax_fit data train_delta start_train train_date
            l1
    ++ rows_of sarimax_init sarimax_fit data train_delta start_train
               train_date l2.
Proof. unfold rows_of. apply flat_map_app. Qed.

(** Rows stand in the table in the order their pairs were visited. *)
Lemma rows_of_order data train_delta start_train train_date
      (pairs : list (Order * SeasonalOrder)) p1 p2 r1 r2 :
  occurs_before p1 p2 pairs ->
  attempt sarimax_init sarimax_fit data train_delta start_train train_date
          p1 = Returned r1 ->
  attempt sarimax_init sarimax_fit data train_delta start_train train_date
          p2 = Returned r2 ->
  occurs_before r1 r2
    (rows_of sarimax_init sarimax_fit data train_delta start_train
             train_date pairs).
Proof.
  intros (l1 & l2 & l3 & ->) H1 H2.
  exists (rows_of sarimax_init sarimax_fit data train_delta start_train
                  train_date l1),
         (rows_of sarimax_init sarimax_fit data train_delta start_train
                  train_date l2),
         (rows_of sarimax_init sarimax_fit data train_delta start_train
                  train_date l3).
  rewrite rows_of_app.
  change (p1 :: l2 ++ p2 :: l3) with ([p1] ++ l2 ++ [p2] ++ l3).
  rewrite !rows_of_app. unfold rows_of at 2 4. cbn [flat_map].
  rewrite H1, H2. reflexivity.
Qed.

(** C8. When the sorting kernel returns the rows with the column
    ascending, the view of the returned table sorted by AIC has a
    non-decreasing AIC column, the view sorted by MSE a non-decreasing MSE
    column, and the last two things printed are 'Min AIC:' with the first
    five rows of the first view and 'Min MSE:' with the first five rows of
    the second; no row left out of a summary has a lower value than a row
    in it. *)
Theorem summaries_are_the_five_lowest
        data train_delta start_train w df w' :
  sorts_ascending sort_rows ->
  find_optimal_pdq sarimax_init sarimax_fit sort_rows data train_delta
                   start_train w = (Returned df, w') ->
  Permutation (rows df) (rows (sort_values sort_rows row_aic df))
  /\ non_decreasing (map row_aic (rows (sort_values sort_rows row_aic df)))
  /\ Permutation (rows df) (rows (sort_values sort_rows row_mse df))
  /\ non_decreasing (map row_mse (rows (sort_values sort_rows row_mse df)))
  /\ (exists out,
        stdout w'
        = out
          ++ [ mkPrint
                 [ VStr "Min AIC:";
                   VFrame (mkDataFrame
                             (firstn 5 (rows (sort_values sort_rows row_aic
                                                          df)))
                             (columns df)) ]
                 newline;
               mkPrint
                 [ VStr "Min MSE:";
                   VFrame (mkDataFrame
                             (firstn 5 (rows (sort_values sort_rows row_mse
                                                          df)))
                             (columns df)) ]
                 newline ])
  /\ (forall r r',
        In r (firstn 5 (rows (sort_values sort_rows row_aic df))) ->
        In r' (skipn 5 (rows (sort_values sort_rows row_aic df))) ->
        (row_aic r <= row_aic r')%Q)
  /\ (forall r r',
        In r (firstn 5 (rows (sort_values sort_rows row_mse df))) ->
        In r' (skipn 5 (rows (sort_values sort_rows row_mse df))) ->
        (row_mse r <= row_mse r')%Q).
Proof.
  intros Hsort Hrun. apply find_optimal_pdq_returned in Hrun.
  destruct Hrun as (c & _ & _ & Hout & _).
  unfold sort_values. cbn [rows].
  destruct (Hsort row_aic (rows df)) as [Hpa Hsa].
  destruct (Hsort row_mse (rows df)) as [Hpm Hsm].
  apply sorted_column in Hsa, Hsm.
  split; [exact Hpa|].
  split; [apply StronglySorted_non_decreasing; exact Hsa|].
  split; [exact Hpm|].
  split; [apply StronglySorted_non_decreasing; exact Hsm|].
  split.
  { eexists. rewrite Hout, app_assoc. reflexivity. }
  split; intros r r' Hr Hr'.
  - apply (StronglySorted_app_le (fun a b => (row_aic a <= row_aic b)%Q)
             (firstn 5 (sort_rows row_aic (rows df)))
             (skipn 5 (sort_rows row_aic (rows df)))); auto.
    rewrite firstn_skipn. exact Hsa.
  - apply (StronglySorted_app_le (fun a b => (row_mse a <= row_mse b)%Q)
             (firstn 5 (sort_rows row_mse (rows df)))
             (skipn 5 (sort_rows row_mse (rows df)))); auto.
    rewrite firstn_skipn. exact Hsm.
Qed.

(** C10, as amended. The 64 pairs of the nested loops are distinct, and in
    the table a run returns the row of a pair visited earlier stands above
    the row of a pair visited later.  In the sorted views two rows that
    tie on AIC (or on MSE) stand in the order their pairs were visited if
    the sorting kernel is stable; the code asks [sort_values] for no
    stable kernel, and without one nothing is said of tied rows. *)
Theorem rows_follow_enumeration data train_delta start_train w df w' :
  find_optimal_pdq sarimax_init sarimax_fit sort_rows data train_delta
                   start_train w = (Returned df, w') ->
  NoDup enumeration
  /\ exists train_date,
       find_optimal_pdq_train_date data train_delta = Returned train_date
       /\ forall p1 p2 r1 r2,
            occurs_before p1 p2 enumeration ->
            attempt sarimax_init sarimax_fit data train_delta start_train
                    train_date p1 = Returned r1 ->
            attempt sarimax_init sarimax_fit data train_delta start_train
                    train_date p2 = Returned r2 ->
            occurs_before r1 r2 (rows df)
            /\ (stable sort_rows -> (row_aic r1 == row_aic r2)%Q ->
                occurs_before r1 r2
                  (rows (sort_values sort_rows row_aic df)))
            /\ (stable sort_rows -> (row_mse r1 == row_mse r2)%Q ->
                occurs_before r1 r2
                  (rows (sort_values sort_rows row_mse df))).
Proof.
  intros Hrun. split; [exact enumeration_NoDup|].
  apply find_optimal_pdq_returned in Hrun.
  destruct Hrun as (c & Hc & -> & _ & _).
  exists c. split; [exact Hc|].
  intros p1 p2 r1 r2 Hb H1 H2.
  assert (Hrows : occurs_before r1 r2
                    (rows (table_of sarimax_init sarimax_fit data
                                    train_delta start_train c))).
  { unfold table_of. cbn [rows]. eapply rows_of_order; eassumption. }
  split; [exact Hrows|].
  split; intros Hst Htie; unfold sort_values; cbn [rows];
    apply stable_keeps_ties; assumption.
Qed.

End Order.

Lemma summaries_are_the_five_lowest_witness :
  sorts_ascending Demo.insertion_sort
  /\ find_optimal_pdq Demo.init Demo.naive_fit Demo.insertion_sort
                      Demo.monthly 2 None world0
     = (Returned Demo.table, Demo.final)
  /\ non_decreasing
       (map row_aic
            (rows (sort_values Demo.insertion_sort row_aic Demo.table))).
Proof.
  split; [exact SortFacts.insertion_sort_sorts|].
  split; [exact DemoFacts.run_returns|].
  exact (proj1 (proj2 (summaries_are_the_five_lowest
                         Demo.init Demo.naive_fit Demo.insertion_sort
                         _ _ _ _ _ _
                         SortFacts.insertion_sort_sorts
                         DemoFacts.run_returns))).
Defined.

Lemma rows_follow_enumeration_witness :
  stable Demo.insertion_sort
  /\ occurs_before ((0,0,0), (0,0,0,12)) ((0,0,0), (0,1,0,12)) enumeration
  /\ exists r1 r2,
       attempt Demo.init Demo.naive_fit Demo.monthly 2 None
               (At (Demo.month_start 2020 4)) ((0,0,0), (0,0,0,12))
       = Returned r1
       /\ attempt Demo.init Demo.naive_fit Demo.monthly 2 None
                  (At (Demo.month_start 2020 4)) ((0,0,0), (0,1,0,12))
          = Returned r2
       /\ (row_aic r1 == row_aic r2)%Q
       /\ occurs_before r1 r2
            (rows (sort_values Demo.insertion_sort row_aic Demo.table)).
Proof.
  assert (Hb : occurs_before ((0,0,0), (0,0,0,12)) ((0,0,0), (0,1,0,12))
                             enumeration).
  { exists [], [((0,0,0), (0,0,1,12))], (skipn 3 enumeration). reflexivity. }
  split; [exact SortFacts.insertion_sort_stable|].
  split; [exact Hb|].
  destruct (rows_follow_enumeration Demo.init Demo.naive_fit
              Demo.insertion_sort _ _ _ _ _ _ DemoFacts.run_returns)
    as (_ & c & Hc & Hord).
  assert (E : c = At (Demo.month_start 2020 4)).
  { vm_compute in Hc. injection Hc as <-. reflexivity. }
  subst c. eexists. eexists.
  split; [vm_compute; reflexivity|].
  split; [vm_compute; reflexivity|].
  split; [vm_compute; reflexivity|].
  apply (Hord _ _ _ _ Hb eq_refl eq_refl).
  - exact SortFacts.insertion_sort_stable.
  - vm_compute. reflexivity.
Defined.

(** C10, as stated, fails on its tie-break.  The code calls [sort_values]
    without asking for a stable sort, and an ascending kernel that is not
    stable is free with tied rows.  With the naive forecaster the pairs
    (0,0,0)x(0,0,0,12) and (0,0,0)x(0,1,0,12) tie on AIC; the first is
    visited first and stands first in the table returned, yet in the
    view sorted by AIC, and in the five rows printed from it, the second
    stands above the first. *)
Lemma unstable_sort_reorders_ties :
  sorts_ascending Demo.unstable_sort
  /\ fst (find_optimal_pdq Demo.init Demo.naive_fit Demo.unstable_sort
                           Demo.monthly 2 None world0)
     = Returned Demo.table
  /\ occurs_before ((0,0,0), (0,0,0,12)) ((0,0,0), (0,1,0,12)) enumeration
  /\ exists r1 r2,
       attempt Demo.init Demo.naive_fit Demo.monthly 2 None
               (At (Demo.month_start 2020 4)) ((0,0,0), (0,0,0,12))
       = Returned r1
       /\ attempt Demo.init Demo.naive_fit Demo.monthly 2 None
                  (At (Demo.month_start 2020 4)) ((0,0,0), (0,1,0,12))
          = Returned r2
       /\ (row_aic r1 == row_aic r2)%Q
       /\ occurs_before r1 r2 (rows Demo.table)
       /\ occurs_before r2 r1
            (rows (sort_values Demo.unstable_sort row_aic Demo.table))
       /\ map row_pair
              (rows (head (sort_values Demo.unstable_sort row_aic
                                       Demo.table)))
          = [ ((0,1,0), (0,0,0,12)); ((0,0,0), (0,1,0,12));
              ((0,0,0), (0,0,0,12)); ((1,1,0), (0,0,0,12));
              ((1,0,0), (0,1,0,12)) ]
       /\ map row_aic
              (rows (head (sort_values Demo.unstable_sort row_aic
                                       Demo.table)))
          = [10%Q; 10%Q; 10%Q; 12%Q; 12%Q].
Proof.
  split; [exact SortFacts.unstable_sort_sorts|].
  split; [vm_compute; reflexivity|].
  split.
  { exists [], [((0,0,0), (0,0,1,12))], (skipn 3 enumeration). reflexivity. }
  eexists. eexists.
  split; [vm_compute; reflexivity|].
  split; [vm_compute; reflexivity|].
  split; [vm_compute; reflexivity|].
  split.
  { exists [], (firstn 1 (skipn 1 (rows Demo.table))),
           (skipn 3 (rows Demo.table)).
    vm_compute. reflexivity. }
  split.
  { exists (firstn 1 (rows (sort_values Demo.unstable_sort row_aic
                                        Demo.table))),
           [],
           (skipn 3 (rows (sort_values Demo.unstable_sort row_aic
                                       Demo.table))).
    vm_compute. reflexivity. }
  split; vm_compute; reflexivity.
Qed.

(* ================================================================= *)
(** ** More on the search: what a run leaves behind *)

Section Accounting.

Variable sarimax_init : SARIMAX -> option exn.
Variable sarimax_fit : SARIMAX -> Result Estimate.
Variable sort_rows : (Row -> Q) -> list Row -> list Row.

Lemma rows_prints_balance data train_delta start_train train_date
      (pairs : list (Order * SeasonalOrder)) :
  (2 * length (rows_of sarimax_init sarimax_fit data train_delta start_train
                       train_date pairs)
   + length (prints_of sarimax_init sarimax_fit data train_delta start_train
                       train_date pairs)
   = 2 * length pairs)%nat.
Proof.
  unfold rows_of, prints_of.
  induction pairs as [|pr pairs IH]; [reflexivity|].
  cbn [flat_map]. rewrite !length_app.
  destruct (attempt _ _ _ _ _ _ pr); cbn [length exception_prints] in *; lia.
Qed.

(** X1. Every one of the 64 pairs leaves exactly one trace: a row in the table,
    or two lines on the output.  After them come the two summaries, and
    nothing else is printed. *)
Theorem every_pair_is_accounted_for data train_delta start_train w df w' :
  find_optimal_pdq sarimax_init sarimax_fit sort_rows data train_delta
                   start_train w = (Returned df, w') ->
  exists logged,
    stdout w' = stdout w ++ logged ++ summary_prints sort_rows df
    /\ (2 * length (rows df) + length logged = 2 * 64)%nat
    /\ length (summary_prints sort_rows df) = 2%nat
    /\ length (built w') = (length (built w) + 64)%nat.
Proof.
  intros Hrun. apply find_optimal_pdq_returned in Hrun.
  destruct Hrun as (c & _ & -> & Hout & Hbuilt).
  eexists. split; [exact Hout|]. split.
  - unfold table_of. cbn [rows].
    change 64%nat with (length enumeration). apply rows_prints_balance.
  - split; [reflexivity|]. rewrite Hbuilt, length_app, length_map.
    reflexivity.
Qed.

(** X2. The table that is returned is the one the loop collected: sorting only
    shapes the two printed summaries.  Whatever the sorting kernel, the
    result, the models built and the output before the summaries are the
    same. *)
Theorem returned_table_is_not_the_sorted_view
        (other_sort : (Row -> Q) -> list Row -> list Row)
        data train_delta start_train w :
  fst (find_optimal_pdq sarimax_init sarimax_fit sort_rows data train_delta
                        start_train w)
  = fst (find_optimal_pdq sarimax_init sarimax_fit other_sort data
                          train_delta start_train w)
  /\ built (snd (find_optimal_pdq sarimax_init sarimax_fit sort_rows data
                                  train_delta start_train w))
     = built (snd (find_optimal_pdq sarimax_init sarimax_fit other_sort data
                                    train_delta start_train w))
  /\ removelast (removelast
       (stdout (snd (find_optimal_pdq sarimax_init sarimax_fit sort_rows data
                                      train_delta start_train w))))
     = removelast (removelast
         (stdout (snd (find_optimal_pdq sarimax_init sarimax_fit other_sort
                                        data train_delta start_train w)))).
Proof.
  rewrite !find_optimal_pdq_run.
  destruct (find_optimal_pdq_train_date_limits data train_delta) as [[]|e];
    [|auto].
  destruct (find_optimal_pdq_train_date data train_delta) as [c|e];
    cbv zeta; cbn [fst snd built stdout]; [|auto].
  split; [reflexivity|]. split; [reflexivity|].
  unfold summary_prints.
  rewrite !app_assoc.
  repeat match goal with
         | |- context [?l ++ [?a; ?b]] =>
             change (l ++ [a; b]) with (l ++ [a] ++ [b])
         end.
  rewrite !app_assoc, !removelast_last. reflexivity.
Qed.

(** X3. A negative [train_delta] asks every forecast to end before it starts:
    on a series with a frequency, and where pandas can compute the cutoff
    (which then lies after the latest date), every attempt raises, the
    table returned is empty and all 64 failures are logged. *)
Theorem negative_train_delta_gives_empty_table
        data train_delta start_train f w :
  freq data = Some f ->
  find_optimal_pdq_train_date_limits data train_delta = Returned tt ->
  train_delta < 0 ->
  exists w',
    find_optimal_pdq sarimax_init sarimax_fit sort_rows data train_delta
                     start_train w
    = (Returned (mkDataFrame [] ["key"; "aic"; "mse"]%string), w')
    /\ length (stdout w') = (length (stdout w) + 2 * 64 + 2)%nat.
Proof.
  intros Hf Hlim Hneg.
  assert (Hall : forall pr,
            In pr enumeration ->
            exists e, attempt sarimax_init sarimax_fit data train_delta
                              start_train
                              (tn_sub (index_max data)
                                      (offset_mul train_delta f)) pr
                      = Raised e).
  { intros pr _.
    destruct (attempt sarimax_init sarimax_fit data train_delta start_train
                      (tn_sub (index_max data) (offset_mul train_delta f)) pr)
      as [row|e] eqn:Hat; [|exists e; reflexivity].
    apply attempt_forecast_shape in Hat.
    destruct Hat as (_ & _ & _ & _ & _ & _ & _ & _ & Hpos & _). lia. }
  pose proof (rows_prints_balance data train_delta start_train
                (tn_sub (index_max data) (offset_mul train_delta f))
                enumeration) as Hbal.
  rewrite find_optimal_pdq_run, Hlim.
  unfold find_optimal_pdq_train_date, int_mul_freq. rewrite Hf.
  cbv beta iota zeta. unfold table_of.
  rewrite (rows_of_all_raise _ _ _ _ _ _ _ Hall) in *.
  set (logged := prints_of sarimax_init sarimax_fit data train_delta
                           start_train
                           (tn_sub (index_max data) (offset_mul train_delta f))
                           enumeration) in *.
  change (length enumeration) with 64%nat in Hbal.
  change (length (@nil Row)) with 0%nat in Hbal.
  eexists. split; [reflexivity|]. cbn [stdout].
  rewrite !length_app.
  change (length (summary_prints sort_rows _)) with 2%nat. lia.
Qed.

End Accounting.

(* ================================================================= *)
(** ** More on the search: what every row satisfies *)

Lemma Qsum_nonneg (l : list Q) :
  Forall (fun x => (0 <= x)%Q) l -> (0 <= Qsum l)%Q.
Proof.
  induction 1 as [|x l Hx _ IH]; simpl.
  - apply Qle_refl.
  - replace 0%Q with (0 + 0)%Q by reflexivity.
    apply Qplus_le_compat; assumption.
Qed.

Lemma Qsquare_nonneg (a : Q) : (0 <= a * a)%Q.
Proof.
  destruct (Qlt_le_dec a 0) as [Hneg|Hpos].
  - setoid_replace (a * a)%Q with ((- a) * (- a))%Q by ring.
    apply Qmult_le_0_compat; apply (Qopp_le_compat a 0), Qlt_le_weak, Hneg.
  - apply Qmult_le_0_compat; assumption.
Qed.

(** A sum of squares is never negative. *)
Lemma sum_of_squares_nonneg (s : Series) :
  (0 <= series_sum (series_pow2 s))%Q.
Proof.
  unfold series_sum, series_pow2, values. cbn [items]. apply Qsum_nonneg.
  induction (items s) as [|[t [x|]] l IH]; simpl.
  - constructor.
  - constructor; [apply Qsquare_nonneg | exact IH].
  - exact IH.
Qed.

Section Rows.

Variable sarimax_init : SARIMAX -> option exn.
Variable sarimax_fit : SARIMAX -> Result Estimate.
Variable sort_rows : (Row -> Q) -> list Row -> list Row.

(** The pairs of the rows collected are the pairs that succeeded, in the
    order visited. *)
Lemma rows_of_pairs data train_delta start_train train_date
      (pairs : list (Order * SeasonalOrder)) :
  map row_pair (rows_of sarimax_init sarimax_fit data train_delta start_train
                        train_date pairs)
  = filter (fun pr =>
              match attempt sarimax_init sarimax_fit data train_delta
                            start_train train_date pr with
              | Returned _ => true
              | Raised _ => false
              end) pairs.
Proof.
  unfold rows_of. induction pairs as [|pr pairs IH]; [reflexivity|].
  cbn [flat_map filter]. rewrite map_app, IH.
  destruct (attempt sarimax_init sarimax_fit data train_delta start_train
                    train_date pr) as [row|e] eqn:Hat; [|reflexivity].
  destruct (attempt_key _ _ _ _ _ _ _ _ Hat) as [Ho Hs].
  cbn [map app]. unfold row_pair. rewrite Ho, Hs.
  destruct pr; reflexivity.
Qed.

(** X4. In the table a run returns, no two rows belong to the same pair of
    orders, every row belongs to a pair of the grid, the key of a row
    carries the very AIC and score of its columns, and no score is
    negative. *)
Theorem rows_are_distinct_and_consistent
        data train_delta start_train w df w' :
  find_optimal_pdq sarimax_init sarimax_fit sort_rows data train_delta
                   start_train w = (Returned df, w') ->
  NoDup (map row_pair (rows df))
  /\ forall row, In row (rows df) ->
       In (row_pair row) enumeration
       /\ fmt_aic (row_key row) = row_aic row
       /\ fmt_mse (row_key row) = row_mse row
       /\ (0 <= row_mse row)%Q.
Proof.
  intros Hrun. apply find_optimal_pdq_returned in Hrun.
  destruct Hrun as (c & _ & -> & _ & _). unfold table_of. cbn [rows].
  split.
  - rewrite rows_of_pairs. apply NoDup_filter. exact enumeration_NoDup.
  - intros row Hrow. split.
    + assert (Hin : In (row_pair row)
                       (map row_pair
                            (rows_of sarimax_init sarimax_fit data train_delta
                                     start_train c enumeration)))
        by (apply in_map; exact Hrow).
      rewrite rows_of_pairs in Hin. apply filter_In in Hin. apply Hin.
    + apply rows_of_inv in Hrow. destruct Hrow as (pr & _ & Hat).
      apply attempt_returned in Hat.
      destruct Hat as (est & prediction & _ & _ & _ & ->).
      cbn [row_key row_aic row_mse fmt_aic fmt_mse].
      split; [reflexivity|]. split; [reflexivity|].
      unfold score. apply sum_of_squares_nonneg.
Qed.

End Rows.

Lemma every_pair_is_accounted_for_witness :
  find_optimal_pdq Demo.init Demo.naive_fit Demo.insertion_sort
                   Demo.monthly 2 None world0
  = (Returned Demo.table, Demo.final)
  /\ exists logged,
       stdout Demo.final
       = stdout world0 ++ logged
         ++ summary_prints Demo.insertion_sort Demo.table
       /\ (2 * length (rows Demo.table) + length logged = 2 * 64)%nat.
Proof.
  split; [exact DemoFacts.run_returns|].
  destruct (every_pair_is_accounted_for Demo.init Demo.naive_fit
              Demo.insertion_sort _ _ _ _ _ _ DemoFacts.run_returns)
    as (logged & Hout & Hbal & _).
  exists logged. split; [exact Hout | exact Hbal].
Defined.

Lemma negative_train_delta_gives_empty_table_witness :
  freq Demo.monthly = Some Demo.MS
  /\ find_optimal_pdq_train_date_limits Demo.monthly (-1) = Returned tt
  /\ -1 < 0
  /\ exists w',
       find_optimal_pdq Demo.init Demo.naive_fit Demo.insertion_sort
                        Demo.monthly (-1) None world0
       = (Returned (mkDataFrame [] ["key"; "aic"; "mse"]%string), w').
Proof.
  split; [reflexivity|]. split; [reflexivity|]. split; [reflexivity|].
  destruct (negative_train_delta_gives_empty_table
              Demo.init Demo.naive_fit Demo.insertion_sort
              Demo.monthly (-1) None Demo.MS world0 eq_refl eq_refl eq_refl)
    as (w' & Hrun & _).
  exists w'. exact Hrun.
Defined.

Lemma rows_are_distinct_and_consistent_witness :
  find_optimal_pdq Demo.init Demo.naive_fit Demo.insertion_sort
                   Demo.monthly 2 None world0
  = (Returned Demo.table, Demo.final)
  /\ NoDup (map row_pair (rows Demo.table)).
Proof.
  split; [exact DemoFacts.run_returns|].
  exact (proj1 (rows_are_distinct_and_consistent
                  Demo.init Demo.naive_fit Demo.insertion_sort
                  _ _ _ _ _ _ DemoFacts.run_returns)).
Defined.

(* ================================================================= *)
(** ** Order on dates, and steps forward *)

Lemma ts_leb_le (a b : Timestamp) : ts_leb a b = true <-> ts_le a b.
Proof.
  unfold ts_leb, ts_compare, ts_le.
  destruct (Z.compare_spec (year a) (year b));
    destruct (Z.compare_spec (month a) (month b));
    destruct (Z.compare_spec (day a) (day b));
    split; intros; try reflexivity; try discriminate; lia.
Qed.

Lemma ts_compare_Eq (a b : Timestamp) : ts_compare a b = Eq -> a = b.
Proof.
  unfold ts_compare. destruct a as [ya ma da], b as [yb mb db]. cbn [year month day].
  destruct (Z.compare_spec ya yb); try discriminate.
  destruct (Z.compare_spec ma mb); try discriminate.
  destruct (Z.compare_spec da db); try discriminate.
  intros _. congruence.
Qed.

Lemma ts_le_refl (a : Timestamp) : ts_le a a.
Proof. unfold ts_le. lia. Qed.

Lemma ts_le_trans (a b c : Timestamp) : ts_le a b -> ts_le b c -> ts_le a c.
Proof. unfold ts_le. lia. Qed.

Lemma ts_le_antisym (a b : Timestamp) : ts_le a b -> ts_le b a -> a = b.
Proof.
  unfold ts_le. destruct a as [ya ma da], b as [yb mb db].
  cbn [year month day]. intros H1 H2.
  assert (ya = yb) by lia. assert (ma = mb) by lia. assert (da = db) by lia.
  congruence.
Qed.

Lemma ts_lt_le (a b : Timestamp) : ts_lt a b -> ts_le a b.
Proof. unfold ts_lt, ts_le. lia. Qed.

Lemma ts_lt_trans (a b c : Timestamp) : ts_lt a b -> ts_lt b c -> ts_lt a c.
Proof. unfold ts_lt. lia. Qed.

Lemma ts_le_lt_apart (a b c : Timestamp) : ts_le a b -> ts_lt b c -> c <> a.
Proof. unfold ts_le, ts_lt. intros H1 H2 ->. lia. Qed.

Lemma ts_max_spec (a b : Timestamp) :
  (ts_max a b = a \/ ts_max a b = b)
  /\ ts_le a (ts_max a b) /\ ts_le b (ts_max a b).
Proof.
  unfold ts_max. destruct (ts_leb a b) eqn:E.
  - apply ts_leb_le in E. auto using ts_le_refl.
  - assert (Hba : ts_le b a).
    { destruct (ts_leb b a) eqn:E'; [apply ts_leb_le; exact E'|].
      exfalso. revert E E'. unfold ts_leb, ts_compare.
      destruct (Z.compare_spec (year a) (year b));
        destruct (Z.compare_spec (month a) (month b));
        destruct (Z.compare_spec (day a) (day b));
        destruct (Z.compare_spec (year b) (year a));
        destruct (Z.compare_spec (month b) (month a));
        destruct (Z.compare_spec (day b) (day a));
        intros; try discriminate; lia. }
    auto using ts_le_refl.
Qed.

(** [index.max()] is a date of the index that no date of it exceeds. *)
Lemma fold_max_spec (l : list Timestamp) (acc : TimeOrNaT) :
  match fold_left (fun acc t => match acc with
                                | NaT => At t
                                | At m => At (ts_max m t)
                                end) l acc with
  | NaT => acc = NaT /\ l = []
  | At m => (acc = At m \/ In m l)
            /\ (forall a, acc = At a -> ts_le a m)
            /\ forall t, In t l -> ts_le t m
  end.
Proof.
  revert acc. induction l as [|t l IH]; intros acc.
  - simpl. destruct acc as [|a]; [auto|].
    split; [auto|]. split; [|intros ? []].
    intros a' H. injection H as <-. apply ts_le_refl.
  - cbn [fold_left].
    match goal with |- context [fold_left ?F l ?acc'] =>
      specialize (IH acc'); destruct (fold_left F l acc') as [|m] end.
    + destruct IH as [H _]. destruct acc; discriminate.
    + destruct IH as (Hin & Hacc & Hall).
      destruct acc as [|a].
      * split; [right; destruct Hin as [H|H];
                [injection H as ->; left; reflexivity | right; exact H]|].
        split; [intros ? H; discriminate|].
        intros t' [<-|Ht']; [apply Hacc; reflexivity | apply Hall; exact Ht'].
      * destruct (ts_max_spec a t) as (Hor & Ha & Ht).
        split.
        { destruct Hin as [H|H]; [|right; right; exact H].
          injection H as <-. destruct Hor as [->| ->];
            [left; reflexivity | right; left; reflexivity]. }
        split.
        { intros a' H. injection H as <-.
          eapply ts_le_trans; [exact Ha | apply Hacc; reflexivity]. }
        intros t' [<-|Ht'].
        { eapply ts_le_trans; [exact Ht | apply Hacc; reflexivity]. }
        apply Hall. exact Ht'.
Qed.

Lemma index_max_spec (s : Series) (m : Timestamp) :
  index_max s = At m ->
  In m (index s) /\ forall t, In t (index s) -> ts_le t m.
Proof.
  unfold index_max. intros H.
  pose proof (fold_max_spec (index s) NaT) as Hspec. rewrite H in Hspec.
  destruct Hspec as ([Habs|Hin] & _ & Hall); [discriminate|]. auto.
Qed.

Lemma index_max_NaT (s : Series) : index_max s = NaT -> items s = [].
Proof.
  unfold index_max. intros H.
  pose proof (fold_max_spec (index s) NaT) as Hspec. rewrite H in Hspec.
  destruct Hspec as [_ Hnil]. unfold index in Hnil.
  destruct (items s); [reflexivity | discriminate].
Qed.

Lemma next_day_later (t : Timestamp) : ts_lt t (next_day t).
Proof.
  unfold next_day, ts_lt.
  destruct (day t <? days_in_month (year t) (month t)) eqn:E1;
    [cbn [year month day]; lia|].
  destruct (month t <? 12) eqn:E2; cbn [year month day]; lia.
Qed.

Lemma add_days_later (t : Timestamp) (n : Z) :
  0 < n -> ts_lt t (add_days t n).
Proof.
  intros Hn. unfold add_days.
  destruct (0 <=? n) eqn:E; [|apply Z.leb_gt in E; lia].
  destruct (Z.to_nat n) as [|k] eqn:Ek; [lia|]. clear.
  induction k as [|k IH].
  - apply next_day_later.
  - eapply ts_lt_trans; [exact IH|]. apply next_day_later.
Qed.

(** A shift by one or more months lands in a later month. *)
Lemma shift_month_later (t : Timestamp) (k : Z) (opt : DayOpt) :
  1 <= month t <= 12 -> 0 < k -> ts_lt t (shift_month t k opt).
Proof.
  intros Hm Hk. unfold shift_month, ts_lt. cbn [year month day].
  pose proof (Z.div_mod (month t - 1 + k) 12 ltac:(lia)) as Hdm.
  pose proof (Z.mod_pos_bound (month t - 1 + k) 12 ltac:(lia)) as Hb.
  assert (0 <= (month t - 1 + k) / 12) by (apply Z.div_pos; lia).
  lia.
Qed.

(** A shift by no month stays in the month. *)
Lemma shift_month_zero (t : Timestamp) (opt : DayOpt) :
  1 <= month t <= 12 ->
  year (shift_month t 0 opt) = year t /\ month (shift_month t 0 opt) = month t.
Proof.
  intros Hm. unfold shift_month. cbn [year month].
  rewrite Z.add_0_r, Z.div_small, Z.mod_small by lia. lia.
Qed.

(** Adding a positive number of periods to a real date gives a later
    date. *)
Lemma ts_add_later (t : Timestamp) (o : Offset) :
  valid_date t -> 0 < steps o -> ts_lt t (ts_add t o).
Proof.
  intros [Hm Hd] Hn. unfold ts_add. destruct (kind o).
  - apply add_days_later. exact Hn.
  - replace ((steps o <=? 0) && (1 <? day t)) with false
      by (symmetry; apply andb_false_iff; left; apply Z.leb_gt; lia).
    apply shift_month_later; assumption.
  - destruct ((0 <? steps o) && (day t <? days_in_month (year t) (month t)))
      eqn:E.
    + apply andb_true_iff in E. destruct E as [_ E]. apply Z.ltb_lt in E.
      destruct (Z.eq_dec (steps o) 1) as [H1|H1].
      * rewrite H1. change (1 - 1) with 0.
        destruct (shift_month_zero t MonthEndDay Hm) as [Hy Hmo].
        unfold ts_lt. rewrite Hy, Hmo.
        unfold shift_month. cbn [day].
        rewrite Z.add_0_r, Z.div_small, Z.mod_small by lia.
        replace (year t + 0) with (year t) by lia.
        replace (month t - 1 + 1) with (month t) by lia. lia.
      * apply shift_month_later; [assumption | lia].
    + apply shift_month_later; assumption.
  - apply shift_month_later; assumption.
Qed.

(** Taking no period away from a real date gives that date or a later
    one (an anchored offset rolls forward to its anchor). *)
Lemma ts_sub_zero_not_earlier (t : Timestamp) (o : Offset) :
  valid_date t -> ts_le t (ts_sub t (offset_mul 0 o)).
Proof.
  intros [Hm Hd]. unfold ts_sub, ts_add, offset_neg, offset_mul.
  cbn [kind steps]. change (- (0 * steps o)) with 0.
  destruct (kind o).
  - apply ts_le_refl.
  - change (0 <=? 0) with true. cbn [andb].
    destruct (1 <? day t) eqn:E.
    + apply ts_lt_le. change (0 + 1) with 1.
      apply shift_month_later; [assumption | lia].
    + apply Z.ltb_ge in E.
      destruct (shift_month_zero t MonthStart Hm) as [Hy Hmo].
      unfold ts_le. rewrite Hy, Hmo. unfold shift_month. cbn [day]. lia.
  - change (0 <? 0) with false. cbn [andb].
    destruct (shift_month_zero t MonthEndDay Hm) as [Hy Hmo].
    unfold ts_le. rewrite Hy, Hmo. unfold shift_month. cbn [day].
    rewrite Z.add_0_r, Z.div_small, Z.mod_small by lia.
    replace (year t + 0) with (year t) by lia.
    replace (month t - 1 + 1) with (month t) by lia. lia.
  - destruct (shift_month_zero t SameDay Hm) as [Hy Hmo].
    unfold ts_le. rewrite Hy, Hmo. unfold shift_month. cbn [day].
    rewrite Z.add_0_r, Z.div_small, Z.mod_small by lia.
    replace (year t + 0) with (year t) by lia.
    replace (month t - 1 + 1) with (month t) by lia. lia.
Qed.

(* ================================================================= *)
(** ** The score when the forecast and the tail share no date *)

Lemma nan_rows_missing (l : list (Timestamp * cell)) :
  Forall (fun it => snd it = None) (map nan_row l).
Proof.
  apply Forall_forall. intros it Hit.
  apply in_map_iff in Hit. destruct Hit as (it' & <- & _). reflexivity.
Qed.

(** Subtracting series that share no label leaves only missing values. *)
Lemma align_sub_apart (a b : list (Timestamp * cell)) :
  (forall ta tb, In ta (map fst a) -> In tb (map fst b) -> ta <> tb) ->
  Forall (fun it => snd it = None) (align_sub a b).
Proof.
  revert b. induction a as [|[ta xa] a IHa]; intros b Hap.
  - destruct b as [|p b]; [constructor|].
    apply (nan_rows_missing (p :: b)).
  - induction b as [|[tb xb] b IHb].
    + apply (nan_rows_missing ((ta, xa) :: a)).
    + cbn [align_sub].
      destruct (ts_compare ta tb) eqn:E.
      * exfalso. apply ts_compare_Eq in E.
        apply (Hap ta tb); [left; reflexivity | left; reflexivity | exact E].
      * constructor; [reflexivity|]. apply IHa.
        intros t1 t2 H1 H2. apply Hap; [right; exact H1 | exact H2].
      * constructor; [reflexivity|]. apply IHb.
        intros t1 t2 H1 H2. apply Hap; [exact H1 | right; exact H2].
Qed.

Lemma series_sum_all_missing (l : list (Timestamp * cell)) (f : option Offset) :
  Forall (fun it => snd it = None) l ->
  series_sum (series_pow2 (mkSeries l f)) = 0%Q.
Proof.
  intros H. unfold series_sum, series_pow2, values. cbn [items].
  induction H as [|[t x] l Hx _ IH]; [reflexivity|].
  cbn [snd] in Hx. subst x. exact IH.
Qed.

(** The latest date of a slice that reaches the latest date of the series
    is that date. *)
Lemma index_max_loc (s : Series) (start : option Timestamp)
      (m stop last : Timestamp) :
  index_max s = At m ->
  ts_le m stop ->
  index_max (loc s start (At stop)) = At last ->
  last = m.
Proof.
  intros Hm Hstop Hlast.
  apply index_max_spec in Hm. destruct Hm as [Hmin Hmall].
  apply index_max_spec in Hlast. destruct Hlast as [Hlin Hlall].
  assert (Hsub : forall t, In t (index (loc s start (At stop))) <->
                           In t (index s) /\ in_range start (At stop) t = true).
  { intros t. unfold index, loc. cbn [items]. rewrite !in_map_iff. split.
    - intros (it & <- & Hit). apply filter_In in Hit.
      destruct Hit as [Hit Hr]. split; [exists it; auto | exact Hr].
    - intros [(it & <- & Hit) Hr]. exists it. split; [reflexivity|].
      apply filter_In. auto. }
  apply Hsub in Hlin. destruct Hlin as [Hlin Hlr].
  apply ts_le_antisym; [apply Hmall; exact Hlin|].
  apply Hlall. apply Hsub. split; [exact Hmin|].
  unfold in_range in *. apply andb_true_iff in Hlr. destruct Hlr as [Hs _].
  apply andb_true_iff. split.
  - destruct start as [a|]; [|reflexivity].
    apply ts_leb_le. apply ts_leb_le in Hs.
    eapply ts_le_trans; [exact Hs | apply Hmall; exact Hlin].
  - apply ts_leb_le. exact Hstop.
Qed.

(* ================================================================= *)
(** ** The sample every model is fitted on *)

(** The label slice keeps the dates from [start] through [stop]. *)
Lemma in_range_spec (start : option Timestamp) (stop : TimeOrNaT)
      (t : Timestamp) :
  in_range start stop t = true <-> in_training_slice start stop t.
Proof.
  unfold in_range, in_training_slice. rewrite andb_true_iff. split.
  - intros [Hs He]. split.
    + intros a ->. apply ts_leb_le. exact Hs.
    + destruct stop as [|c]; [discriminate|].
      exists c. split; [reflexivity | apply ts_leb_le; exact He].
  - intros [Hs (c & -> & He)]. split.
    + destruct start as [a|]; [|reflexivity].
      apply ts_leb_le. apply Hs. reflexivity.
    + apply ts_leb_le. exact He.
Qed.

Lemma loc_items (s : Series) (start : option Timestamp) (stop : TimeOrNaT)
      (it : Timestamp * cell) :
  In it (items (loc s start stop))
  <-> In it (items s) /\ in_training_slice start stop (fst it).
Proof.
  unfold loc. cbn [items]. rewrite filter_In, in_range_spec. reflexivity.
Qed.

(** The cutoff on the calendar, by the kind of the frequency; the anchored
    month offsets are read from a date on their anchor. *)
Lemma cutoff_on_calendar (m : Timestamp) (n : Z) (f : Offset) :
  (kind f = Day -> ts_sub m (offset_mul n f) = add_days m (- (n * steps f)))
  /\ (kind f = Months ->
      ts_sub m (offset_mul n f) = shift_month m (- (n * steps f)) SameDay)
  /\ (kind f = MonthBegin -> day m = 1 ->
      ts_sub m (offset_mul n f) = shift_month m (- (n * steps f)) MonthStart)
  /\ (kind f = MonthEnd -> day m = days_in_month (year m) (month m) ->
      ts_sub m (offset_mul n f)
      = shift_month m (- (n * steps f)) MonthEndDay).
Proof.
  unfold ts_sub, ts_add, offset_neg, offset_mul. cbn [kind steps].
  repeat split.
  - intros ->. reflexivity.
  - intros ->. reflexivity.
  - intros -> Hd. rewrite Hd. change (1 <? 1) with false.
    rewrite andb_false_r. reflexivity.
  - intros -> Hd. rewrite <- Hd, Z.ltb_irrefl, andb_false_r. reflexivity.
Qed.

Section Sample.

Variable sarimax_init : SARIMAX -> option exn.
Variable sarimax_fit : SARIMAX -> Result Estimate.
Variable sort_rows : (Row -> Q) -> list Row -> list Row.


End Sample.


Section ZeroWindow.

Variable sarimax_init : SARIMAX -> option exn.
Variable sarimax_fit : SARIMAX -> Result Estimate.
Variable sort_rows : (Row -> Q) -> list Row -> list Row.

(** X5. With [train_delta = 0] the tail [data[-0:]] is the whole series and the
    one forecast lies a period after its latest date, so they share no
    date: on real dates and a forward frequency every row the search
    returns has the score 0. *)
Theorem zero_train_delta_scores_nothing data start_train f w df w' :
  freq data = Some f ->
  0 < steps f ->
  Forall valid_date (index data) ->
  find_optimal_pdq sarimax_init sarimax_fit sort_rows data 0 start_train w
  = (Returned df, w') ->
  forall row, In row (rows df) -> row_mse row = 0%Q.
Proof.
  intros Hf Hsteps Hvalid Hrun row Hrow.
  apply find_optimal_pdq_returned in Hrun.
  destruct Hrun as (c & Hc & -> & _ & _).
  destruct (train_date_returned _ _ _ Hc) as (f0 & Hf0 & ->).
  assert (f0 = f) by congruence. subst f0.
  unfold table_of in Hrow. cbn [rows] in Hrow.
  apply rows_of_inv in Hrow. destruct Hrow as (pr & _ & Hat).
  apply attempt_forecast_shape in Hat.
  destruct Hat as (est & prediction & last & f' & _ & _ & Hmax & Hf' & _
                   & _ & Hidx & Hmse & _).
  assert (f' = f) by congruence. subst f'.
  rewrite Hmse. unfold series_sub. apply series_sum_all_missing.
  apply align_sub_apart.
  change (- 0) with 0. unfold slice_from, py_slice_from. cbn [items Z.leb].
  change (Z.to_nat 0) with 0%nat. cbn [Z.compare skipn].
  fold (index prediction). fold (index data). rewrite Hidx.
  change (seq 0 (Z.to_nat (0 + 1))) with [0%nat]. cbn [map].
  intros ta tb [<-|[]] Htb.
  destruct (index_max data) as [|m] eqn:Hm.
  { apply index_max_NaT in Hm. unfold index in Htb. rewrite Hm in Htb.
    destruct Htb. }
  cbn [tn_sub] in Hmax.
  assert (Hvm : valid_date m).
  { apply (proj1 (Forall_forall _ _) Hvalid).
    apply (index_max_spec _ _ Hm). }
  assert (last = m).
  { eapply index_max_loc; [exact Hm | | exact Hmax].
    apply ts_sub_zero_not_earlier. exact Hvm. }
  subst last.
  apply (ts_le_lt_apart tb m).
  - apply (index_max_spec _ _ Hm). exact Htb.
  - apply ts_add_later; [exact Hvm|].
    unfold offset_mul. cbn [steps]. lia.
Qed.

End ZeroWindow.

Lemma zero_train_delta_scores_nothing_witness :
  freq Demo.monthly = Some Demo.MS
  /\ 0 < steps Demo.MS
  /\ exists df w',
       find_optimal_pdq Demo.init Demo.naive_fit Demo.insertion_sort
                        Demo.monthly 0 None world0 = (Returned df, w')
       /\ length (rows df) = 48%nat
       /\ forall row, In row (rows df) -> row_mse row = 0%Q.
Proof.
  split; [reflexivity|]. split; [reflexivity|].
  eexists. eexists. split; [vm_compute; reflexivity|].
  split; [reflexivity|].
  eapply (zero_train_delta_scores_nothing
            Demo.init Demo.naive_fit Demo.insertion_sort
            Demo.monthly None Demo.MS world0 _ _ eq_refl eq_refl).
  - unfold valid_date. vm_compute.
    repeat constructor; discriminate.
  - vm_compute. reflexivity.
Defined.

(* ================================================================= *)
(** ** More on the chart of [test_stationarity] *)

Lemma present_length_le (l : list cell) :
  (length (present l) <= length l)%nat.
Proof.
  induction l as [|[x|] l IH]; simpl; lia.
Qed.

Lemma window_at_length_le {A : Type} (w i : nat) (l : list A) :
  (length (window_at w i l) <= i + 1)%nat.
Proof. unfold window_at. rewrite length_firstn. lia. Qed.

Lemma window_at_length {A : Type} (w i : nat) (l : list A) :
  (i < length l)%nat -> length (window_at w i l) = Nat.min w (i + 1).
Proof.
  intros Hi. unfold window_at. rewrite length_firstn, length_skipn. lia.
Qed.

Lemma window_at_Forall {A : Type} (P : A -> Prop) (w i : nat) (l : list A) :
  Forall P l -> Forall P (window_at w i l).
Proof.
  intros H. apply Forall_forall. intros x Hx. unfold window_at in Hx.
  apply in_firstn in Hx. apply in_skipn in Hx.
  apply (proj1 (Forall_forall _ _) H). exact Hx.
Qed.

(** X6. A window wider than the series never fills: both rolling statistics
    are missing everywhere, and nothing of the original series is left to
    plot after the first [window] positions.  This holds for any series,
    with or without missing observations. *)
Theorem oversized_window_leaves_nothing
        (sqrt : Q -> Q) (timeseries : Series) (window : Z) :
  Z.of_nat (size timeseries) < window ->
  exists chart,
    test_stationarity sqrt timeseries window = Returned chart
    /\ count (rolmean chart) = 0%nat
    /\ count (rolstd chart) = 0%nat
    /\ items (orig chart) = [].
Proof.
  intros Hw. unfold test_stationarity, rolling.
  destruct (window <? 0) eqn:E; [apply Z.ltb_lt in E; lia|].
  eexists. split; [reflexivity|]. cbn [rolmean rolstd orig].
  assert (Hshort : forall i, (i < size timeseries)%nat ->
            (Z.to_nat window
             <=? length (present (window_at (Z.to_nat window) i
                                            (values timeseries))))%nat
            = false).
  { intros i Hi. apply Nat.leb_gt.
    pose proof (present_length_le (window_at (Z.to_nat window) i
                                             (values timeseries))).
    pose proof (window_at_length_le (Z.to_nat window) i (values timeseries)).
    lia. }
  split; [|split].
  - unfold count, rolling_mean. rewrite rolling_apply_values.
    cbn [obj Pandas.window min_periods].
    rewrite (present_after_threshold _ (size timeseries)); [lia|].
    intros i Hi. split; [intros _; exact Hi | intros _].
    unfold window_mean. rewrite (Hshort i Hi). reflexivity.
  - unfold count, rolling_std. rewrite rolling_apply_values.
    cbn [obj Pandas.window min_periods].
    rewrite (present_after_threshold _ (size timeseries)); [lia|].
    intros i Hi. split; [intros _; exact Hi | intros _].
    unfold window_std. rewrite (Hshort i Hi). reflexivity.
  - unfold iloc_from, slice_from, py_slice_from. cbn [items].
    destruct (0 <=? window) eqn:E0; [|apply Z.leb_gt in E0; lia].
    apply skipn_all2. unfold size in Hw. lia.
Qed.

(** X7. The plotted original series starts at position [window], one position
    after the first value of the rolling mean: on a series with no missing
    observation, all of moderate size, the rolling mean has one value more
    than the original line has points, and its first value stands at a
    date that is not plotted. *)
Theorem original_line_starts_one_late
        (sqrt : Q -> Q) (timeseries : Series) (window : Z) :
  complete timeseries ->
  moderate timeseries ->
  0 < window <= Z.of_nat (size timeseries) ->
  exists chart,
    test_stationarity sqrt timeseries window = Returned chart
    /\ items (orig chart) = skipn (Z.to_nat window) (items timeseries)
    /\ Z.of_nat (size (orig chart)) = Z.of_nat (size timeseries) - window
    /\ Z.of_nat (count (rolmean chart)) = Z.of_nat (size (orig chart)) + 1
    /\ nth (Z.to_nat window - 1) (values (rolmean chart)) None <> None.
Proof.
  intros Hc _ [Hpos Hle]. unfold test_stationarity, rolling.
  destruct (window <? 0) eqn:E; [apply Z.ltb_lt in E; lia|].
  eexists. split; [reflexivity|]. cbn [rolmean orig].
  assert (Hitems : items (iloc_from timeseries window)
                   = skipn (Z.to_nat window) (items timeseries)).
  { unfold iloc_from, slice_from, py_slice_from. cbn [items].
    destruct (0 <=? window) eqn:E0; [reflexivity|apply Z.leb_gt in E0; lia]. }
  assert (Hsize : Z.of_nat (size (iloc_from timeseries window))
                  = Z.of_nat (size timeseries) - window).
  { unfold size in *. rewrite Hitems, length_skipn. lia. }
  split; [exact Hitems|]. split; [exact Hsize|]. split.
  - rewrite Hsize, rolling_mean_count by (assumption || lia). lia.
  - unfold rolling_mean. rewrite rolling_apply_nth
      by (cbn [obj]; lia).
    cbn [obj Pandas.window min_periods]. intros Hnone.
    apply window_mean_missing in Hnone; [lia | assumption | lia | lia].
Qed.

Lemma present_constant (c : Q) (l : list cell) :
  Forall (fun x : cell => x = Some c) l ->
  present l = repeat c (length l).
Proof.
  induction 1 as [|x l Hx _ IH]; [reflexivity|].
  subst x. simpl. rewrite IH. reflexivity.
Qed.

Lemma Qnat_succ (k : nat) : (Qnat (S k) == 1 + Qnat k)%Q.
Proof.
  unfold Qnat. rewrite Nat2Z.inj_succ, <- Z.add_1_l, inject_Z_plus.
  reflexivity.
Qed.

(** On observations of moderate size the sum over any window stays within
    the number of its observations times 10^100, far inside the range of
    double precision. *)
Lemma moderate_window_sum (s : Series) (w i : nat) :
  moderate s ->
  (Qabs (Qsum (present (window_at w i (values s))))
   <= Qnat (length (present (window_at w i (values s))))
      * inject_Z (10 ^ 100))%Q.
Proof.
  intros Hm. apply (window_at_Forall _ w i) in Hm.
  induction Hm as [|[x|] l Hx _ IH].
  - apply Qle_refl.
  - change (present (Some x :: l)) with (x :: present l).
    cbn [Qsum fold_right length]. fold (Qsum (present l)).
    eapply Qle_trans; [apply Qabs_triangle|].
    rewrite Qnat_succ, Qmult_plus_distr_l, Qmult_1_l.
    apply Qplus_le_compat; assumption.
  - exact IH.
Qed.

Lemma Qsum_repeat (c : Q) (k : nat) : (Qsum (repeat c k) == Qnat k * c)%Q.
Proof.
  induction k as [|k IH].
  - simpl. unfold Qnat. simpl. ring.
  - cbn [repeat Qsum fold_right]. fold (Qsum (repeat c k)).
    rewrite IH, Qnat_succ. ring.
Qed.

Lemma Qnat_pos (k : nat) : (0 < k)%nat -> ~ (Qnat k == 0)%Q.
Proof.
  intros Hk. unfold Qnat, Qeq. simpl. lia.
Qed.

Lemma mean_of_repeat (c : Q) (k : nat) :
  (0 < k)%nat -> (mean_of (repeat c k) == c)%Q.
Proof.
  intros Hk. unfold mean_of. rewrite repeat_length, Qsum_repeat.
  field. apply Qnat_pos. exact Hk.
Qed.

Lemma Qsum_zero (l : list Q) :
  Forall (fun x => (x == 0)%Q) l -> (Qsum l == 0)%Q.
Proof.
  induction 1 as [|x l Hx _ IH]; simpl.
  - reflexivity.
  - rewrite Hx, IH. ring.
Qed.

Lemma var_of_repeat (c : Q) (k : nat) :
  (0 < k)%nat -> (var_of (repeat c k) == 0)%Q.
Proof.
  intros Hk. unfold var_of.
  assert (H0 : (Qsum (map (fun x => (x - mean_of (repeat c k))
                                    * (x - mean_of (repeat c k)))
                          (repeat c k)) == 0)%Q).
  { apply Qsum_zero. apply Forall_forall. intros y Hy.
    apply in_map_iff in Hy. destruct Hy as (x & <- & Hx).
    apply repeat_spec in Hx. subst x.
    rewrite (mean_of_repeat c k Hk). ring. }
  unfold Qdiv. rewrite H0. ring.
Qed.

(** X8. On a series whose observations are all the same number, every value of
    the rolling mean is that number and every value of the rolling standard
    deviation is the square root of a zero variance. *)
Theorem constant_series_rolls_flat
        (sqrt : Q -> Q) (timeseries : Series) (window : Z) (c : Q) :
  constant_series c timeseries ->
  1 < window <= Z.of_nat (size timeseries) ->
  exists chart,
    test_stationarity sqrt timeseries window = Returned chart
    /\ forall i,
         window - 1 <= Z.of_nat i < Z.of_nat (size timeseries) ->
         (exists m, nth i (values (rolmean chart)) None = Some m
                    /\ (m == c)%Q)
         /\ (exists v, nth i (values (rolstd chart)) None = Some (sqrt v)
                       /\ (v == 0)%Q).
Proof.
  intros Hc [Hpos Hle]. unfold test_stationarity, rolling.
  destruct (window <? 0) eqn:E; [apply Z.ltb_lt in E; lia|].
  eexists. split; [reflexivity|]. cbn [rolmean rolstd].
  intros i Hi.
  assert (Hin : (i < size timeseries)%nat) by lia.
  assert (Hlen : length (values timeseries) = size timeseries)
    by (unfold values, size; apply length_map).
  assert (Hwin : present (window_at (Z.to_nat window) i (values timeseries))
                 = repeat c (Z.to_nat window)).
  { rewrite (present_constant c).
    - rewrite window_at_length by lia. f_equal. lia.
    - apply window_at_Forall. exact Hc. }
  unfold rolling_mean, rolling_std.
  rewrite !rolling_apply_nth by (cbn [obj]; exact Hin).
  cbn [obj Pandas.window min_periods].
  unfold window_mean, window_std. rewrite Hwin, repeat_length.
  replace (Z.to_nat window <=? Z.to_nat window)%nat with true
    by (symmetry; apply Nat.leb_refl).
  replace (0 <? Z.to_nat window)%nat with true
    by (symmetry; apply Nat.ltb_lt; lia).
  replace (1 <? Z.to_nat window)%nat with true
    by (symmetry; apply Nat.ltb_lt; lia).
  cbn [andb]. split.
  - eexists. split; [reflexivity|]. apply mean_of_repeat. lia.
  - eexists. split; [reflexivity|]. apply var_of_repeat. lia.
Qed.

Lemma oversized_window_leaves_nothing_witness :
  Z.of_nat (size Demo.monthly) < 7
  /\ exists chart,
       test_stationarity Demo.sqrt_floor Demo.monthly 7 = Returned chart
       /\ count (rolmean chart) = 0%nat
       /\ count (rolstd chart) = 0%nat
       /\ items (orig chart) = [].
Proof.
  assert (H : Z.of_nat (size Demo.monthly) < 7) by reflexivity.
  split; [exact H|].
  exact (oversized_window_leaves_nothing Demo.sqrt_floor Demo.monthly 7 H).
Defined.

Lemma original_line_starts_one_late_witness :
  complete Demo.monthly
  /\ moderate Demo.monthly
  /\ 0 < 2 <= Z.of_nat (size Demo.monthly)
  /\ exists chart,
       test_stationarity Demo.sqrt_floor Demo.monthly 2 = Returned chart
       /\ Z.of_nat (size (orig chart)) = 6 - 2
       /\ Z.of_nat (count (rolmean chart)) = Z.of_nat (size (orig chart)) + 1.
Proof.
  assert (Hc : complete Demo.monthly).
  { unfold complete. vm_compute. repeat constructor; discriminate. }
  assert (Hm : moderate Demo.monthly).
  { unfold moderate. cbn [values Demo.monthly items map snd].
    repeat constructor; vm_compute; discriminate. }
  assert (Hw : 0 < 2 <= Z.of_nat (size Demo.monthly))
    by (vm_compute; split; [reflexivity | discriminate]).
  split; [exact Hc|]. split; [exact Hm|]. split; [exact Hw|].
  destruct (original_line_starts_one_late Demo.sqrt_floor Demo.monthly 2
                                          Hc Hm Hw)
    as (chart & Hrun & _ & Hsize & Hcount & _).
  exists chart. auto.
Defined.

Lemma constant_series_rolls_flat_witness :
  constant_series 100 Demo.flat
  /\ 1 < 3 <= Z.of_nat (size Demo.flat)
  /\ exists chart,
       test_stationarity Demo.sqrt_floor Demo.flat 3 = Returned chart
       /\ exists m, nth 2 (values (rolmean chart)) None = Some m
                    /\ (m == 100)%Q.
Proof.
  assert (Hc : constant_series 100 Demo.flat).
  { unfold constant_series. vm_compute. repeat constructor. }
  assert (Hw : 1 < 3 <= Z.of_nat (size Demo.flat))
    by (vm_compute; split; [reflexivity | discriminate]).
  split; [exact Hc|]. split; [exact Hw|].
  destruct (constant_series_rolls_flat Demo.sqrt_floor Demo.flat 3 100 Hc Hw)
    as (chart & Hrun & Hall).
  exists chart. split; [exact Hrun|].
  apply (Hall 2%nat). vm_compute. split; [discriminate | reflexivity].
Defined.

(* ================================================================= *)
(** ** The series [plot_act_pacf] hands to [plot_acf] *)

Lemma dropna_size (s : Series) : size (dropna s) = count s.
Proof.
  unfold size, dropna, count, values. cbn [items].
  induction (items s) as [|[t [x|]] l IH]; simpl; auto.
Qed.

Lemma complete_nth (s : Series) (i : nat) :
  complete s -> (i < size s)%nat ->
  exists x, nth i (values s) None = Some x.
Proof.
  intros Hc Hi.
  assert (Hin : In (nth i (values s) None) (values s)).
  { apply nth_In. unfold values, size in *. rewrite length_map. exact Hi. }
  apply (proj1 (Forall_forall _ _) Hc) in Hin.
  destruct (nth i (values s) None) as [x|]; [exists x; reflexivity|].
  congruence.
Qed.

Lemma series_diff_values (s : Series) (periods : Z) :
  values (series_diff s periods)
  = map (fun i => cell_sub (nth i (values s) None)
                           (cell_at (values s) (Z.of_nat i - periods)))
        (seq 0 (size s)).
Proof. unfold series_diff, values. cbn [items]. apply map_map. Qed.

Lemma filter_from_threshold (p : nat -> bool) (k n : nat) :
  (forall i, (i < n)%nat -> (p i = true <-> (k <= i)%nat)) ->
  filter p (seq 0 n) = seq k (n - k).
Proof.
  induction n as [|n IH]; intros H.
  - reflexivity.
  - rewrite seq_S, filter_app, IH by (intros i Hi; apply H; lia).
    specialize (H n (Nat.lt_succ_diag_r n)). cbn [filter Nat.add].
    destruct (p n) eqn:E.
    + assert (k <= n)%nat by (apply H; reflexivity).
      replace (S n - k)%nat with (S (n - k)) by lia.
      rewrite seq_S. replace (k + (n - k))%nat with n by lia. reflexivity.
    + assert (~ (k <= n)%nat) by (intros Hle; apply H in Hle; discriminate).
      replace (S n - k)%nat with 0%nat by lia.
      replace (n - k)%nat with 0%nat by lia. reflexivity.
Qed.

Lemma nth_from (A : Type) (l : list A) (d : A) (k : nat) :
  map (fun i => nth i l d) (seq k (length l - k)) = skipn k l.
Proof.
  apply nth_ext with (d := d) (d' := d).
  - rewrite length_map, length_seq, length_skipn. reflexivity.
  - intros i Hi. rewrite length_map, length_seq in Hi.
    rewrite nth_skipn.
    rewrite (nth_indep _ d (nth 0%nat l d))
      by (rewrite length_map, length_seq; exact Hi).
    rewrite (map_nth (fun i => nth i l d)), seq_nth by exact Hi.
    reflexivity.
Qed.

(** On a series with no missing observation the differences that hold a
    value are those from position [periods] on. *)
Lemma series_diff_notna (s : Series) (periods : Z) (i : nat) :
  complete s -> 0 <= periods -> (i < size s)%nat ->
  notna (cell_sub (nth i (values s) None)
                  (cell_at (values s) (Z.of_nat i - periods))) = true
  <-> (Z.to_nat periods <= i)%nat.
Proof.
  intros Hc Hf Hi.
  destruct (complete_nth s i Hc Hi) as [x ->].
  assert (Hlen : length (values s) = size s)
    by (unfold values, size; apply length_map).
  unfold cell_at. rewrite Hlen.
  destruct (0 <=? Z.of_nat i - periods) eqn:E0;
    destruct (Z.of_nat i - periods <? Z.of_nat (size s)) eqn:E1;
    cbn [andb cell_sub notna];
    try apply Z.leb_le in E0; try apply Z.leb_gt in E0;
    try apply Z.ltb_lt in E1; try apply Z.ltb_ge in E1.
  - destruct (complete_nth s (Z.to_nat (Z.of_nat i - periods)) Hc
                           ltac:(lia)) as [y ->].
    cbn [notna]. split; [lia | reflexivity].
  - lia.
  - split; [discriminate | lia].
  - split; [discriminate | lia].
Qed.

(** X9. On a series with no missing observation, differencing by [freq >= 0]
    and dropping what is missing leaves the dates from position [freq] on:
    [plot_acf] is handed a series of [len - freq] observations (none when
    [freq >= len]), and 24 lags unless the caller says otherwise. *)
Theorem correlogram_input_length
        (close : Series) (freq : Z) (lags : option Z) :
  complete close ->
  0 <= freq ->
  size (acf_input (plot_act_pacf close freq lags))
  = (size close - Z.to_nat freq)%nat
  /\ index (acf_input (plot_act_pacf close freq lags))
     = skipn (Z.to_nat freq) (index close)
  /\ acf_lags (plot_act_pacf close freq None) = 24.
Proof.
  intros Hc Hf.
  assert (Hidx : index (acf_input (plot_act_pacf close freq lags))
                 = skipn (Z.to_nat freq) (index close)).
  { unfold plot_act_pacf. cbn [acf_input].
    unfold index, dropna, series_diff. cbn [items].
    rewrite filter_map_swap, map_map. cbn [fst snd].
    rewrite (filter_ext_in _ (fun i => (Z.to_nat freq <=? i)%nat)).
    - rewrite (filter_from_threshold _ (Z.to_nat freq))
        by (intros i _; apply Nat.leb_le).
      replace (size close) with (length (map fst (items close)))
        by (unfold size; apply length_map).
      apply nth_from.
    - intros i Hi. apply in_seq in Hi.
      assert (Hlt : (i < size close)%nat) by lia.
      destruct (Nat.leb_spec (Z.to_nat freq) i) as [Hle|Hgt].
      + apply (series_diff_notna close freq i Hc Hf Hlt). exact Hle.
      + destruct (notna _) eqn:E; [|reflexivity].
        apply (series_diff_notna close freq i Hc Hf Hlt) in E. lia. }
  split; [|split; [exact Hidx | reflexivity]].
  transitivity (length (index (acf_input (plot_act_pacf close freq lags)))).
  - unfold index, size. symmetry. apply length_map.
  - rewrite Hidx, length_skipn. unfold index, size.
    rewrite length_map. reflexivity.
Qed.

Lemma nth_Some_error (l : list cell) (i : nat) (x : Q) :
  nth i l None = Some x -> nth_error l i = Some (Some x).
Proof.
  intros H. destruct (nth_error l i) as [c|] eqn:E.
  - apply nth_error_nth with (d := @None Q) in E.
    rewrite <- E, H. reflexivity.
  - apply nth_error_None in E. rewrite nth_overflow in H by exact E.
    discriminate.
Qed.

(** X10. Differencing a series by the period it repeats with leaves only zeros:
    every observation handed to [plot_acf] is 0. *)
Theorem seasonal_difference_of_periodic_series
        (close : Series) (freq : Z) (lags : option Z) :
  0 < freq ->
  periodic (Z.to_nat freq) close ->
  Forall (fun it => exists v, snd it = Some v /\ (v == 0)%Q)
         (items (acf_input (plot_act_pacf close freq lags))).
Proof.
  intros Hf Hper. unfold plot_act_pacf. cbn [acf_input].
  unfold dropna, series_diff. cbn [items].
  apply Forall_forall. intros it Hit. apply filter_In in Hit.
  destruct Hit as [Hin Hna]. apply in_map_iff in Hin.
  destruct Hin as (i & <- & Hi). cbn [snd] in *.
  apply in_seq in Hi.
  destruct (nth i (values close) None) as [a|] eqn:Ha;
    [|discriminate].
  unfold cell_at in *.
  destruct ((0 <=? Z.of_nat i - freq)
            && (Z.of_nat i - freq <? Z.of_nat (length (values close))))
    eqn:E; [|discriminate].
  apply andb_true_iff in E. destruct E as [E0 E1].
  apply Z.leb_le in E0. apply Z.ltb_lt in E1.
  destruct (nth (Z.to_nat (Z.of_nat i - freq)) (values close) None)
    as [b|] eqn:Hb; [|discriminate].
  cbn [cell_sub]. eexists. split; [reflexivity|].
  apply nth_Some_error in Ha, Hb.
  replace i with (Z.to_nat (Z.of_nat i - freq) + Z.to_nat freq)%nat in Ha
    by lia.
  rewrite (Hper _ _ _ Hb Ha). ring.
Qed.

Lemma correlogram_input_length_witness :
  complete Demo.monthly
  /\ 0 <= 2
  /\ size (acf_input (plot_act_pacf Demo.monthly 2 None)) = (6 - 2)%nat
  /\ index (acf_input (plot_act_pacf Demo.monthly 2 None))
     = [ Demo.month_start 2020 3; Demo.month_start 2020 4;
         Demo.month_start 2020 5; Demo.month_start 2020 6 ].
Proof.
  assert (Hc : complete Demo.monthly).
  { unfold complete. vm_compute. repeat constructor; discriminate. }
  assert (H0 : 0 <= 2) by discriminate.
  split; [exact Hc|]. split; [exact H0|].
  destruct (correlogram_input_length Demo.monthly 2 None Hc H0)
    as (Hsize & Hidx & _).
  split; [exact Hsize|]. rewrite Hidx. reflexivity.
Defined.

Lemma seasonal_difference_of_periodic_series_witness :
  0 < 3
  /\ periodic (Z.to_nat 3) Demo.seasonal
  /\ Forall (fun it => exists v, snd it = Some v /\ (v == 0)%Q)
            (items (acf_input (plot_act_pacf Demo.seasonal 3 None))).
Proof.
  assert (H0 : 0 < 3) by reflexivity.
  assert (Hp : periodic (Z.to_nat 3) Demo.seasonal).
  { intros i x y H1 H2.
    do 7 (destruct i as [|i];
          [vm_compute in H1, H2; try discriminate;
           injection H1 as <-; injection H2 as <-; reflexivity|]).
    destruct i; discriminate. }
  split; [exact H0|]. split; [exact Hp|].
  exact (seasonal_difference_of_periodic_series Demo.seasonal 3 None H0 Hp).
Defined.

(* ================================================================= *)
(** ** The Dickey-Fuller report *)

Lemma append_prefix_inj (p a b : string) :
  (p ++ a)%string = (p ++ b)%string -> a = b.
Proof.
  induction p as [|c p IH]; simpl; intros H; [exact H|].
  injection H as H. apply IH. exact H.
Qed.

Lemma append_last_inj (a b : string) (c : Ascii.ascii) :
  (a ++ String c EmptyString)%string = (b ++ String c EmptyString)%string ->
  a = b.
Proof.
  revert b. induction a as [|x a IH]; intros [|y b] H; simpl in H.
  - reflexivity.
  - injection H as _ H. destruct b; discriminate.
  - injection H as _ H. destruct a; discriminate.
  - injection H as -> H. f_equal. apply IH. exact H.
Qed.

(** Two significance levels never share a label. *)
Lemma critical_label_inj (k k' : string) :
  critical_label k = critical_label k' -> k = k'.
Proof.
  unfold critical_label. intros H. apply append_prefix_inj in H.
  apply append_last_inj in H. exact H.
Qed.

Lemma has_label_app (s : LabelSeries) (it : string * Q) (label : string) :
  has_label (s ++ [it]) label
  = has_label s label || String.eqb (fst it) label.
Proof.
  unfold has_label. rewrite existsb_app. simpl. rewrite orb_false_r.
  reflexivity.
Qed.

(** Assigning labels that are new and differ from one another appends
    them in order. *)
Lemma assign_new_labels (crit : list (string * Q)) (acc : LabelSeries) :
  NoDup (map fst crit) ->
  (forall kv, In kv crit -> has_label acc (critical_label (fst kv)) = false) ->
  fold_left (fun dfoutput kv =>
               set_label dfoutput (critical_label (fst kv)) (snd kv))
            crit acc
  = acc ++ map (fun kv => (critical_label (fst kv), snd kv)) crit.
Proof.
  revert acc. induction crit as [|[k v] crit IH]; intros acc Hnd Hnew.
  - simpl. rewrite app_nil_r. reflexivity.
  - cbn [fold_left map fst snd]. unfold set_label at 2.
    pose proof (Hnew (k, v) (or_introl eq_refl)) as Hfresh.
    cbn [fst] in Hfresh. rewrite Hfresh.
    inversion Hnd as [|? ? Hk Hnd']; subst.
    rewrite IH; [rewrite <- app_assoc; reflexivity | exact Hnd' |].
    intros [k' v'] Hin. rewrite has_label_app.
    rewrite (Hnew (k', v') (or_intror Hin)). cbn [orb fst].
    apply String.eqb_neq. intros Heq. apply critical_label_inj in Heq.
    subst k'. apply Hk. apply (in_map fst) in Hin. exact Hin.
Qed.

Lemma find_critical (crit : list (string * Q)) (k : string) (v : Q) :
  NoDup (map fst crit) -> In (k, v) crit ->
  find (fun it => String.eqb (fst it) (critical_label k))
       (map (fun kv => (critical_label (fst kv), snd kv)) crit)
  = Some (critical_label k, v).
Proof.
  induction crit as [|[k' v'] crit IH]; intros Hnd Hin; [destruct Hin|].
  inversion Hnd as [|? ? Hk Hnd']; subst. cbn [map find fst snd].
  destruct Hin as [Heq|Hin].
  - injection Heq as -> ->. rewrite String.eqb_refl. reflexivity.
  - destruct (String.eqb (critical_label k') (critical_label k)) eqn:E.
    + apply String.eqb_eq in E. apply critical_label_inj in E. subst k'.
      exfalso. apply Hk. apply (in_map fst) in Hin. exact Hin.
    + apply IH; assumption.
Qed.

(** X11. The report lists the statistic, the p-value, the lags and the
    observations used, then one line per critical value in the order of the
    dictionary, each under its own label: nothing is overwritten, and
    looking a critical value up by its label gives it back. *)
Theorem report_lists_every_critical_value (dftest : ADFResult) :
  NoDup (map fst (adf_critical dftest)) ->
  dickey_fuller_report dftest
  = [ ("Test Statistic"%string, adf_stat dftest);
      ("p-value"%string, adf_pvalue dftest);
      ("#Lags Used"%string, inject_Z (adf_usedlag dftest));
      ("Number of Observations Used"%string, inject_Z (adf_nobs dftest)) ]
    ++ map (fun kv => (critical_label (fst kv), snd kv)) (adf_critical dftest)
  /\ length (dickey_fuller_report dftest)
     = (4 + length (adf_critical dftest))%nat
  /\ forall k v, In (k, v) (adf_critical dftest) ->
       get_label (dickey_fuller_report dftest) (critical_label k) = Some v.
Proof.
  intros Hnd.
  assert (Hrep : dickey_fuller_report dftest
                 = [ ("Test Statistic"%string, adf_stat dftest);
                     ("p-value"%string, adf_pvalue dftest);
                     ("#Lags Used"%string, inject_Z (adf_usedlag dftest));
                     ("Number of Observations Used"%string,
                      inject_Z (adf_nobs dftest)) ]
                   ++ map (fun kv => (critical_label (fst kv), snd kv))
                          (adf_critical dftest)).
  { unfold dickey_fuller_report. apply assign_new_labels; [exact Hnd|].
    intros kv _. reflexivity. }
  split; [exact Hrep|]. split.
  - rewrite Hrep, length_app, length_map. reflexivity.
  - intros k v Hin. rewrite Hrep. unfold get_label. cbn [app find fst].
    replace (String.eqb "Test Statistic" (critical_label k)) with false
      by reflexivity.
    replace (String.eqb "p-value" (critical_label k)) with false
      by reflexivity.
    replace (String.eqb "#Lags Used" (critical_label k)) with false
      by reflexivity.
    replace (String.eqb "Number of Observations Used" (critical_label k))
      with false by reflexivity.
    rewrite (find_critical _ k v Hnd Hin). reflexivity.
Qed.

Lemma report_lists_every_critical_value_witness :
  NoDup (map fst (adf_critical Demo.dftest))
  /\ length (dickey_fuller_report Demo.dftest) = 7%nat
  /\ get_label (dickey_fuller_report Demo.dftest) (critical_label "5%")
     = Some (-29 # 10)%Q.
Proof.
  assert (Hnd : NoDup (map fst (adf_critical Demo.dftest))).
  { vm_compute. repeat constructor; simpl; intuition discriminate. }
  split; [exact Hnd|].
  destruct (report_lists_every_critical_value Demo.dftest Hnd)
    as (_ & Hlen & Hget).
  split; [exact Hlen|].
  apply Hget. vm_compute. right. left. reflexivity.
Defined.
